(** * The match-and-resolve pipeline of [prompt_exp_fixed.ipynb]

    A shallow embedding of the notebook's functions
    ([load_api_key], [build_comparison_prompt], [call_openai_model],
    [extract_query_number], [find_paragraph_index] and the cells that glue
    them), followed by the
    properties of the prose specification stated over that embedding.

    Modelling conventions.
    - A Python [str] is a [string]; a character is the code point below 256
      that an [ascii] denotes.  On that range the class [\d] of [re] is
      exactly ['0'..'9'] and [str.isspace] is the set listed in [is_space].
    - A Python [int] is a [Z]; list positions produced by [enumerate] and
      [list.index] are [nat].
    - A call that may raise returns an [outcome]; [open], the hosted model
      and the dataset are parameters of the functions that use them.
    - The interpreter is the notebook's CPython 3.9.21 with its default
      limit of 4300 digits on the conversion of a string to an [int].
    - [print] is presentational and is kept only where a function's own
      diagnostic is its observable result ([find_paragraph_index]). *)

From Stdlib Require Import Bool Arith ZArith Lia List Ascii String.
From Stdlib Require Import DecimalString DecimalNat.
Import ListNotations.
Open Scope string_scope.

(** ** Exceptions and results *)

Inductive exn : Type :=
| FileNotFoundError
| RuntimeError (msg : string)
| IndexError
| ValueError
| TypeError
| UpstreamError (cls msg : string).

Inductive outcome (A : Type) : Type :=
| Return (a : A)
| Raise (e : exn).
Arguments Return {A} a.
Arguments Raise {A} e.

Definition bind {A B : Type} (m : outcome A) (k : A -> outcome B) : outcome B :=
  match m with
  | Return a => k a
  | Raise e => Raise e
  end.

Notation "x <- m ;; k" := (bind m (fun x => k))
  (at level 61, m at next level, right associativity).

(** ** Characters *)

Definition nl : string := String (ascii_of_nat 10) "".
Definition tab : string := String (ascii_of_nat 9) "".

Definition code (c : ascii) : nat := nat_of_ascii c.

(** [\d] on code points below 256. *)
Definition is_digit (c : ascii) : bool :=
  (48 <=? code c)%nat && (code c <=? 57)%nat.

Definition digit_value (c : ascii) : Z := Z.of_nat (code c - 48).

(** [str.isspace] on code points below 256: TAB, LF, VT, FF, CR, the
    separators FS, GS, RS, US, SPACE, NEL and NO-BREAK SPACE. *)
Definition is_space (c : ascii) : bool :=
  let n := code c in
  ((9 <=? n)%nat && (n <=? 13)%nat) || ((28 <=? n)%nat && (n <=? 32)%nat)
  || (n =? 133)%nat || (n =? 160)%nat.

(** ** Built-ins used by the notebook *)

(** The base-10 value of a run of digits, most significant digit first:
    what [int] computes on a run that it accepts. *)
Fixpoint int_acc (acc : Z) (s : string) : Z :=
  match s with
  | EmptyString => acc
  | String c s' => int_acc (10 * acc + digit_value c) s'
  end.

Definition py_int (s : string) : Z := int_acc 0 s.

(** [sys.get_int_max_str_digits()], at its default. *)
Definition int_max_str_digits : nat := 4300.

(** [int(s)] on a run of digits: a run of more than [int_max_str_digits]
    digits is refused with [ValueError], leading zeros counted. *)
Definition checked_int (s : string) : outcome Z :=
  if (int_max_str_digits <? String.length s)%nat then Raise ValueError
  else Return (py_int s).

(** [str(n)] for a non-negative integer. *)
Definition py_str (n : nat) : string := NilEmpty.string_of_uint (Nat.to_uint n).

(** [s.lstrip()], [s.rstrip()] and [s.strip()]. *)
Fixpoint lstrip (s : string) : string :=
  match s with
  | EmptyString => EmptyString
  | String c s' => if is_space c then lstrip s' else s
  end.

Fixpoint rstrip (s : string) : string :=
  match s with
  | EmptyString => EmptyString
  | String c s' =>
      match rstrip s' with
      | EmptyString => if is_space c then EmptyString else String c EmptyString
      | r => String c r
      end
  end.

Definition strip (s : string) : string := rstrip (lstrip s).

(** [seq[key]] for an integer key: a negative key counts from the end, a key
    outside [-len, len) raises [IndexError].  Lists and dataset objects
    index alike. *)
Definition py_getitem {A : Type} (seq : list A) (key : Z) : outcome A :=
  let size := Z.of_nat (List.length seq) in
  if ((key <? 0) && (key + size <? 0))%Z || (size <=? key)%Z then Raise IndexError
  else
    let k := if (key <? 0)%Z then (key + size)%Z else key in
    match nth_error seq (Z.to_nat k) with
    | Some x => Return x
    | None => Raise IndexError
    end.

(** [l.index(x)]: the position of the first element equal to [x], or
    [ValueError]. *)
Fixpoint list_index (l : list string) (x : string) : outcome nat :=
  match l with
  | [] => Raise ValueError
  | y :: l' =>
      if String.eqb y x then Return 0%nat
      else i <- list_index l' x ;; Return (S i)
  end.

(** ** Regular expression [Query (\d+)] *)

(** The literal part: [literal p s] is the rest of [s] after the prefix [p]. *)
Fixpoint literal (p s : string) : option string :=
  match p with
  | EmptyString => Some s
  | String a p' =>
      match s with
      | EmptyString => None
      | String b s' => if Ascii.eqb a b then literal p' s' else None
      end
  end.

(** Greedy [\d*] at the head of [s]. *)
Fixpoint digit_run (s : string) : string :=
  match s with
  | EmptyString => EmptyString
  | String c s' => if is_digit c then String c (digit_run s') else EmptyString
  end.

(** The pattern anchored at the head of [s]; the result is [group(1)].
    [\d+] ends the pattern, so the greedy run is the match whenever it is
    not empty. *)
Definition match_here (s : string) : option string :=
  match literal "Query " s with
  | None => None
  | Some rest =>
      match digit_run rest with
      | EmptyString => None
      | g => Some g
      end
  end.

(** [re.search]: the match at the leftmost position that has one. *)
Fixpoint re_search (s : string) : option string :=
  match match_here s with
  | Some g => Some g
  | None =>
      match s with
      | EmptyString => None
      | String _ s' => re_search s'
      end
  end.

(** ** The notebook's data and functions *)

Record CodeSample : Type := { query : string; answer : string }.

(** Cell 3.  [open_read path] stands for [open(path, "r")] followed by
    [f.read()]: the text of the file, [FileNotFoundError], or another
    exception [e] given by its [str(e)]. *)
Inductive read_result : Type :=
| ReadText (content : string)
| ReadNotFound
| ReadFailed (str_e : string).

Section ApiKey.

Variable open_read : string -> read_result.

Definition load_api_key (path : string) : outcome string :=
  match open_read path with
  | ReadText content => Return (strip content)
  | ReadNotFound => Raise (RuntimeError ("API key file '" ++ path ++ "' not found."))
  | ReadFailed e => Raise (RuntimeError ("Error loading API key: " ++ e))
  end.

End ApiKey.

(** Cell 5.  [data.select(range(start, stop))], by the checks the library
    makes in turn.  An empty dataset is returned as it is.  A range with
    [start <= stop] is contiguous: its first index [start] and its last
    index [stop - 1] must lie in the dataset, or [IndexError] is raised, and
    the rows [start..stop-1] are sliced out; for [start = stop] the last
    index is [start - 1], which passes (as -1, read from the end, when
    [start = 0]), so the empty range is refused exactly when [start] is not
    a row.  A range with [stop < start] has no index, and selects no row. *)
Definition select_range (data : list CodeSample) (start stop : nat)
  : outcome (list CodeSample) :=
  match data with
  | [] => Return []
  | _ :: _ =>
      if (start <=? stop)%nat then
        if (start <? List.length data)%nat && (stop <=? List.length data)%nat
        then Return (firstn (stop - start) (skipn start data))
        else Raise IndexError
      else Return []
  end.

(** Cell 6. *)
Definition prompt_head (code : string) : string :=
  ("The following code is provided:" ++ nl ++ nl ++ code ++ nl ++ nl)
  ++ "Please identify which query in the list below is the most similar to the code in terms of purpose. The options are:"
  ++ nl ++ nl.

Definition prompt_line (i : nat) (example : CodeSample) : string :=
  "Query " ++ py_str (i + 1) ++ ": " ++ query example ++ nl.

Definition build_comparison_prompt (code : string) (subset_examples : list CodeSample)
  : string :=
  let content := prompt_head code in
  snd (fold_left
         (fun (st : nat * string) example =>
            let (i, content) := st in
            (S i, content ++ prompt_line i example))
         subset_examples (0%nat, content)).

(** Cell 8. *)
Definition extract_query_number (response_text : string) : outcome (option Z) :=
  match re_search response_text with
  | Some g => n <- checked_int g ;; Return (Some n)
  | None => Return None
  end.

(** Cell 9.  [find_paragraph_index] yields the lines it prints and its
    return value. *)
Definition not_found_line : string := "Reference paragraph not found in the list.".

Definition find_paragraph_index (paragraphs : list string) (reference_paragraph : string)
  : list string * outcome (option nat) :=
  match list_index paragraphs reference_paragraph with
  | Return i => ([], Return (Some i))
  | Raise ValueError => ([not_found_line], Return None)
  | Raise e => ([], Raise e)
  end.

Record ResolvedMatch : Type :=
  { matched_query_text : string; index_position : option nat }.

(** The branch of cell 9 taken when [query_number is not None]. *)
Definition resolve (query_number : Z) (subset data : list CodeSample)
  : outcome ResolvedMatch :=
  row <- py_getitem subset (query_number - 1) ;;
  let matched_query_text := query row in
  let all_queries := map query data in
  index_position <- snd (find_paragraph_index all_queries matched_query_text) ;;
  Return {| matched_query_text := matched_query_text;
            index_position := index_position |}.

(** Cells 5 to 9 in sequence; [call_openai_model] is the hosted model seen
    as a function of the prompt it is sent.  Its answer is the content of a
    reply, which may be [None]; [re.search] refuses [None] with
    [TypeError]. *)
Definition run_matcher (call_openai_model : string -> outcome (option string))
    (data : list CodeSample) (reference : Z) (SUBSET_START SUBSET_END : nat)
  : outcome (option ResolvedMatch) :=
  row <- py_getitem data reference ;;
  let code_string := answer row in
  subset <- select_range data SUBSET_START SUBSET_END ;;
  open_gen <- call_openai_model (build_comparison_prompt code_string subset) ;;
  query_number <- match open_gen with
                  | Some response_text => extract_query_number response_text
                  | None => Raise TypeError
                  end ;;
  match query_number with
  | Some query_number =>
      r <- resolve query_number subset data ;; Return (Some r)
  | None => Return None
  end.

(** ** Vocabulary of the specification *)

Fixpoint digits_only (s : string) : bool :=
  match s with
  | EmptyString => true
  | String c s' => is_digit c && digits_only s'
  end.

Fixpoint spaces_only (s : string) : bool :=
  match s with
  | EmptyString => true
  | String c s' => is_space c && spaces_only s'
  end.

Definition starts_with_digit (s : string) : bool :=
  match s with
  | EmptyString => false
  | String c _ => is_digit c
  end.

Definition starts_with_space (s : string) : bool :=
  match s with
  | EmptyString => false
  | String c _ => is_space c
  end.

Fixpoint ends_with_space (s : string) : bool :=
  match s with
  | EmptyString => false
  | String c EmptyString => is_space c
  | String _ s' => ends_with_space s'
  end.

(** The base-10 value of a digit string, by positional weights. *)
Fixpoint decimal_value (s : string) : Z :=
  match s with
  | EmptyString => 0
  | String c s' => digit_value c * 10 ^ Z.of_nat (String.length s') + decimal_value s'
  end.

(** At offset [i] of [text] stands the token "Query " followed by the digit
    run [ds] (one digit at least, and the run is not continued). *)
Definition token_at (text : string) (i : nat) (ds : string) : Prop :=
  exists pre post,
    text = pre ++ "Query " ++ ds ++ post /\ String.length pre = i /\
    ds <> "" /\ digits_only ds = true /\ starts_with_digit post = false.

Definition first_token (text : string) (i : nat) (ds : string) : Prop :=
  token_at text i ds /\ forall i' ds', (i' < i)%nat -> ~ token_at text i' ds'.

(** [a] occurs in [text] and [b] occurs after it. *)
Definition contains_before (a b text : string) : Prop :=
  exists pre mid post, text = pre ++ a ++ mid ++ b ++ post.

(** [sub] occurs in [text]. *)
Definition contains (sub text : string) : Prop :=
  exists pre post, text = pre ++ sub ++ post.

Definition queries (names : list string) : list CodeSample :=
  map (fun q => {| query := q; answer := "" |}) names.

(** The candidate lines of a prompt, the first one numbered [i + 1]. *)
Fixpoint labelled (i : nat) (l : list CodeSample) : string :=
  match l with
  | [] => ""
  | example :: l' => prompt_line i example ++ labelled (S i) l'
  end.

(** The digit [c] written [n] times. *)
Fixpoint replicate (n : nat) (c : ascii) : string :=
  match n with
  | O => EmptyString
  | S n' => String c (replicate n' c)
  end.

(** No character of [s] is the letter that starts the pattern. *)
Fixpoint no_Q (s : string) : bool :=
  match s with
  | EmptyString => true
  | String c s' => negb (Ascii.eqb "Q" c) && no_Q s'
  end.

(** ** The hosted model and the configured run *)

(** Cell 7.  A chat message of the request, and the part of the reply that
    the notebook reads, [response.choices[k].message.content]; the content
    of a reply message is a string or [None]. *)
Record Message : Type := { role : string; content : string }.

Module Reply.

Record ChatCompletionMessage : Type := { content : option string }.

End Reply.

Record Choice : Type := { message : Reply.ChatCompletionMessage }.

Record ChatCompletion : Type := { choices : list Choice }.

(** Cell 1, the configuration variables. *)
Definition REFERENCE_INDEX : Z := 1.
Definition SUBSET_START : nat := 900.
Definition SUBSET_END : nat := 1000.
Definition OPENAI_MODEL : string := "gpt-4o-mini".
Definition OPENAI_MAX_TOKENS : Z := 150.

Section Invoker.

(** The type of sampling temperatures; the notebook only passes one on. *)
Variable float : Type.

(** [openai.chat.completions.create], by its keyword arguments [model],
    [messages], [max_tokens] and [temperature]. *)
Variable create : string -> list Message -> Z -> float -> outcome ChatCompletion.

Definition call_openai_model (messages : list Message) (model : string)
    (max_tokens : Z) (temperature : float) : outcome (option string) :=
  response <- create model messages max_tokens temperature ;;
  choice <- py_getitem (choices response) 0 ;;
  Return (Reply.content (message choice)).

Variable OPENAI_TEMPERATURE : float.

(** Cells 5 to 9 as configured: one user message that holds the prompt. *)
Definition notebook (data : list CodeSample) : outcome (option ResolvedMatch) :=
  run_matcher
    (fun prompt =>
       call_openai_model [{| role := "user"; content := prompt |}]
         OPENAI_MODEL OPENAI_MAX_TOKENS OPENAI_TEMPERATURE)
    data REFERENCE_INDEX SUBSET_START SUBSET_END.

End Invoker.

(** ** Runs on concrete inputs *)

Example extract_first_of_two :
  extract_query_number "Query 3 is not it, but Query 7 is" = Return (Some 3%Z).
Proof. reflexivity. Qed.

Example extract_notebook_answer :
  extract_query_number "Among the provided queries, **Query 91** is the most similar" = Return (Some 91%Z).
Proof. reflexivity. Qed.

Example extract_lowercase : extract_query_number "query 3" = Return None.
Proof. reflexivity. Qed.

Example build_two :
  build_comparison_prompt "x" (queries ["a"; "b"])
  = prompt_head "x" ++ "Query 1: a" ++ nl ++ "Query 2: b" ++ nl.
Proof. reflexivity. Qed.

Example end_to_end :
  run_matcher (fun _ => Return (Some "... Query 2 is the best match ..."))
    (queries ["a"; "b"; "c"; "d"; "e"]) 1 2 5
  = Return (Some {| matched_query_text := "d"; index_position := Some 3%nat |}).
Proof. reflexivity. Qed.

(** ** Strings *)

Lemma append_assoc (a b c : string) : (a ++ b) ++ c = a ++ (b ++ c).
Proof. induction a as [|x a IH]; simpl; [reflexivity | now rewrite IH]. Qed.

Lemma append_nil_r (a : string) : a ++ "" = a.
Proof. induction a as [|x a IH]; simpl; [reflexivity | now rewrite IH]. Qed.

Lemma length_append (a b : string) :
  String.length (a ++ b) = (String.length a + String.length b)%nat.
Proof. induction a as [|x a IH]; simpl; [reflexivity | now rewrite IH]. Qed.

Lemma length_zero (a : string) : String.length a = 0%nat -> a = "".
Proof. destruct a; [reflexivity | discriminate]. Qed.

(** ** The regular expression *)

Lemma literal_iff (p s r : string) : literal p s = Some r <-> s = p ++ r.
Proof.
  revert s; induction p as [|a p IH]; intros s; simpl.
  - split; [intros [= ->]; reflexivity | intros ->; reflexivity].
  - destruct s as [|b s]; [split; discriminate|].
    destruct (Ascii.eqb_spec a b) as [->|Hab].
    + rewrite IH. split; [intros ->; reflexivity | intros [= ->]; reflexivity].
    + split; [discriminate | intros [= Hb _]; congruence].
Qed.

Lemma digit_run_digits (s : string) : digits_only (digit_run s) = true.
Proof.
  induction s as [|c s IH]; simpl; [reflexivity|].
  destruct (is_digit c) eqn:Hc; simpl; [now rewrite Hc | reflexivity].
Qed.

Lemma digit_run_split (s : string) :
  exists post, s = digit_run s ++ post /\ starts_with_digit post = false.
Proof.
  induction s as [|c s [post [Hs Hp]]]; simpl.
  - exists ""; split; reflexivity.
  - destruct (is_digit c) eqn:Hc.
    + exists post; split; [simpl; now rewrite <- Hs | exact Hp].
    + exists (String c s); split; [reflexivity | exact Hc].
Qed.

Lemma digit_run_append (ds post : string) :
  digits_only ds = true -> starts_with_digit post = false ->
  digit_run (ds ++ post) = ds.
Proof.
  induction ds as [|c ds IH]; simpl; intros Hd Hp.
  - destruct post as [|c post]; simpl in *; [reflexivity | now rewrite Hp].
  - apply andb_prop in Hd as [Hc Hd]. rewrite Hc, IH; auto.
Qed.

Lemma match_here_iff (s g : string) : match_here s = Some g <-> token_at s 0 g.
Proof.
  unfold match_here, token_at; split.
  - destruct (literal "Query " s) as [rest|] eqn:Hl; [|discriminate].
    apply literal_iff in Hl.
    destruct (digit_run_split rest) as [post [Hr Hp]].
    pose proof (digit_run_digits rest) as Hd.
    destruct (digit_run rest) as [|c r] eqn:Hrun; [discriminate|].
    intros [= <-].
    exists "", post; repeat split; auto; [|discriminate].
    rewrite Hl, Hr; reflexivity.
  - intros [pre [post [Hs [Hlen [Hne [Hd Hp]]]]]].
    apply length_zero in Hlen; subst pre.
    assert (Hl : literal "Query " s = Some (g ++ post))
      by (apply literal_iff; rewrite Hs; reflexivity).
    rewrite Hl, (digit_run_append g post Hd Hp).
    destruct g; [congruence | reflexivity].
Qed.

Lemma token_at_cons (c : ascii) (s : string) (i : nat) (ds : string) :
  token_at (String c s) (S i) ds <-> token_at s i ds.
Proof.
  unfold token_at; split.
  - intros [pre [post [Hs [Hlen H]]]].
    destruct pre as [|c' pre]; [discriminate|].
    simpl in Hs, Hlen. injection Hs as _ Hs. injection Hlen as Hlen.
    exists pre, post; auto.
  - intros [pre [post [Hs [Hlen H]]]].
    exists (String c pre), post; simpl; rewrite Hs, Hlen; auto.
Qed.

Lemma token_at_empty (i : nat) (ds : string) : ~ token_at "" i ds.
Proof.
  intros [pre [post [Hs _]]].
  apply (f_equal String.length) in Hs.
  rewrite length_append in Hs; simpl in Hs; lia.
Qed.

Lemma re_search_eq (s : string) :
  re_search s =
  match match_here s with
  | Some g => Some g
  | None => match s with EmptyString => None | String _ s' => re_search s' end
  end.
Proof. destruct s; reflexivity. Qed.

Lemma re_search_some (s g : string) :
  re_search s = Some g -> exists i, first_token s i g.
Proof.
  induction s as [|c s IH]; rewrite re_search_eq.
  - discriminate.
  - destruct (match_here (String c s)) as [g0|] eqn:Hm.
    + intros [= <-]. exists 0%nat; split; [now apply match_here_iff | intros; lia].
    + intros Hs. destruct (IH Hs) as [i [Ht Hmin]].
      exists (S i); split; [now apply token_at_cons|].
      intros [|k] ds' Hlt Hk.
      * apply match_here_iff in Hk; congruence.
      * apply token_at_cons in Hk. apply (Hmin k ds'); [lia | exact Hk].
Qed.

Lemma re_search_none (s : string) :
  re_search s = None -> forall i ds, ~ token_at s i ds.
Proof.
  induction s as [|c s IH]; rewrite re_search_eq.
  - intros _ i ds; apply token_at_empty.
  - destruct (match_here (String c s)) as [g0|] eqn:Hm; [discriminate|].
    intros Hs [|k] ds Hk.
    + apply match_here_iff in Hk; congruence.
    + apply token_at_cons in Hk. exact (IH Hs k ds Hk).
Qed.

Lemma token_at_functional (s : string) (i : nat) (ds ds' : string) :
  token_at s i ds -> token_at s i ds' -> ds = ds'.
Proof.
  revert s; induction i as [|i IH]; intros s H H'.
  - apply match_here_iff in H, H'; congruence.
  - destruct s as [|c s]; [now apply token_at_empty in H|].
    apply token_at_cons in H, H'. eauto.
Qed.

Lemma first_token_unique (s : string) (i i' : nat) (ds ds' : string) :
  first_token s i ds -> first_token s i' ds' -> i = i' /\ ds = ds'.
Proof.
  intros [H Hmin] [H' Hmin'].
  assert (i = i') as <-.
  { destruct (Nat.lt_trichotomy i i') as [Hlt|[Heq|Hgt]]; [|exact Heq|].
    - elim (Hmin' i ds Hlt H).
    - elim (Hmin i' ds' Hgt H'). }
  split; [reflexivity | eapply token_at_functional; eauto].
Qed.

Lemma re_search_first (s : string) (i : nat) (ds : string) :
  first_token s i ds -> re_search s = Some ds.
Proof.
  intros Hf. destruct (re_search s) as [g|] eqn:Hs.
  - destruct (re_search_some s g Hs) as [j Hj].
    destruct (first_token_unique s i j ds g Hf Hj) as [_ ->]; reflexivity.
  - destruct Hf as [Ht _]. elim (re_search_none s Hs i ds Ht).
Qed.

(** ** Decimal numerals *)

Lemma int_acc_decimal (s : string) (acc : Z) :
  int_acc acc s = (acc * 10 ^ Z.of_nat (String.length s) + decimal_value s)%Z.
Proof.
  revert acc; induction s as [|c s IH]; intros acc.
  - simpl; lia.
  - cbn [int_acc decimal_value String.length]. rewrite IH.
    rewrite Nat2Z.inj_succ, Z.pow_succ_r by lia. ring.
Qed.

Lemma py_int_decimal (s : string) : py_int s = decimal_value s.
Proof. unfold py_int; rewrite int_acc_decimal; lia. Qed.

Lemma int_acc_uint (d : Decimal.uint) (acc : nat) :
  int_acc (Z.of_nat acc) (NilEmpty.string_of_uint d) = Z.of_nat (Nat.of_uint_acc d acc).
Proof.
  revert acc; induction d; intros acc;
    cbn [NilEmpty.string_of_uint int_acc Nat.of_uint_acc];
    [reflexivity | rewrite <- IHd; f_equal; rewrite Nat.tail_mul_spec ..].
  all: match goal with
       | |- context [digit_value ?c] =>
           let v := eval vm_compute in (digit_value c) in
           change (digit_value c) with v
       end; lia.
Qed.

Lemma py_int_py_str (n : nat) : py_int (py_str n) = Z.of_nat n.
Proof.
  unfold py_int, py_str. change 0%Z with (Z.of_nat 0).
  rewrite int_acc_uint. f_equal. apply Unsigned.of_to.
Qed.

Lemma string_of_uint_digits (d : Decimal.uint) :
  digits_only (NilEmpty.string_of_uint d) = true.
Proof. induction d; simpl; auto. Qed.

Lemma py_str_digits (n : nat) : digits_only (py_str n) = true.
Proof. apply string_of_uint_digits. Qed.

Lemma py_str_nonempty (n : nat) : py_str n <> "".
Proof.
  unfold py_str; intros H.
  pose proof (Unsigned.to_of (Nat.to_uint n)) as Hn.
  rewrite Unsigned.of_to in Hn.
  destruct (Nat.to_uint n); simpl in H; discriminate.
Qed.

(** ** Selection Extractor *)

Lemma checked_int_short (s : string) :
  (String.length s <= int_max_str_digits)%nat -> checked_int s = Return (py_int s).
Proof.
  intros H. unfold checked_int.
  destruct (Nat.ltb_spec int_max_str_digits (String.length s)); [lia | reflexivity].
Qed.

Lemma checked_int_long (s : string) :
  (int_max_str_digits < String.length s)%nat -> checked_int s = Raise ValueError.
Proof.
  intros H. unfold checked_int.
  destruct (Nat.ltb_spec int_max_str_digits (String.length s)); [reflexivity | lia].
Qed.

Lemma extract_of_first_token (text : string) (i : nat) (ds : string) :
  first_token text i ds -> (String.length ds <= int_max_str_digits)%nat ->
  extract_query_number text = Return (Some (decimal_value ds)).
Proof.
  intros Hf Hlen. unfold extract_query_number.
  rewrite (re_search_first text i ds Hf), (checked_int_short ds Hlen), py_int_decimal.
  reflexivity.
Qed.

Lemma extract_of_long_token (text : string) (i : nat) (ds : string) :
  first_token text i ds -> (int_max_str_digits < String.length ds)%nat ->
  extract_query_number text = Raise ValueError.
Proof.
  intros Hf Hlen. unfold extract_query_number.
  rewrite (re_search_first text i ds Hf), (checked_int_long ds Hlen). reflexivity.
Qed.

Lemma extract_of_no_token (text : string) :
  (forall i ds, ~ token_at text i ds) -> extract_query_number text = Return None.
Proof.
  intros Hno. unfold extract_query_number.
  destruct (re_search text) as [g|] eqn:Hs; [|reflexivity].
  destruct (re_search_some text g Hs) as [i [Ht _]]. elim (Hno i g Ht).
Qed.

Lemma first_token_or_none (text : string) :
  (exists i ds, first_token text i ds) \/ (forall i ds, ~ token_at text i ds).
Proof.
  destruct (re_search text) as [g|] eqn:Hs.
  - left. destruct (re_search_some text g Hs) as [i Hi]. exists i, g; exact Hi.
  - right. now apply re_search_none.
Qed.

Lemma token_at_intro (pre ds post : string) :
  ds <> "" -> digits_only ds = true -> starts_with_digit post = false ->
  token_at (pre ++ "Query " ++ ds ++ post) (String.length pre) ds.
Proof. intros Hne Hd Hp. exists pre, post; auto. Qed.

(** C1, as amended.  The extractor returns the base-10 value of the digit
    run of the first "Query " token that is followed by a digit, as long as
    that run has at most 4300 digits; on a longer run [int] raises
    [ValueError]; it returns [None] when the text has no such token; every
    text is in one of these cases.  In particular it returns 3 for a text
    whose first such token is "Query 3", whatever "Query 7" comes later. *)
Theorem extract_query_number_first_match (text : string) :
  (forall i ds, first_token text i ds ->
     (String.length ds <= int_max_str_digits)%nat ->
     extract_query_number text = Return (Some (decimal_value ds))) /\
  (forall i ds, first_token text i ds ->
     (int_max_str_digits < String.length ds)%nat ->
     extract_query_number text = Raise ValueError) /\
  ((forall i ds, ~ token_at text i ds) -> extract_query_number text = Return None) /\
  ((exists i ds, first_token text i ds) \/ (forall i ds, ~ token_at text i ds)) /\
  (forall pre mid post,
     text = pre ++ "Query 3" ++ mid ++ "Query 7" ++ post ->
     starts_with_digit mid = false ->
     (forall i ds, (i < String.length pre)%nat -> ~ token_at text i ds) ->
     extract_query_number text = Return (Some 3%Z)).
Proof.
  split; [apply extract_of_first_token|].
  split; [apply extract_of_long_token|].
  split; [apply extract_of_no_token|].
  split; [apply first_token_or_none|].
  intros pre mid post Ht Hmid Hmin.
  apply (extract_of_first_token text (String.length pre) "3").
  - split; [|exact Hmin].
    rewrite Ht. apply (token_at_intro pre "3" (mid ++ "Query 7" ++ post));
      [discriminate | reflexivity | destruct mid; [reflexivity | exact Hmid]].
  - apply Nat.leb_le. reflexivity.
Qed.

Lemma extract_query_number_first_match_witness :
  "Query 3 is not it, but Query 7 is" = "" ++ "Query 3" ++ " is not it, but " ++ "Query 7" ++ " is" /\
  starts_with_digit " is not it, but " = false /\
  extract_query_number "Query 3 is not it, but Query 7 is" = Return (Some 3%Z).
Proof.
  split; [reflexivity|]. split; [reflexivity|].
  apply (proj2 (proj2 (proj2 (proj2
    (extract_query_number_first_match "Query 3 is not it, but Query 7 is"))))
    "" " is not it, but " " is");
    [reflexivity | reflexivity | simpl; intros; lia].
Defined.

(** C1, as stated, fails twice: a text can contain "Query 3" before
    "Query 7" and yet start its first token elsewhere, and a token followed
    by 4301 digits gives no integer but [ValueError]. *)
Lemma extract_query_number_not_first_3 :
  contains_before "Query 3" "Query 7" "Query 12, Query 3 and Query 7" /\
  extract_query_number "Query 12, Query 3 and Query 7" = Return (Some 12%Z) /\
  extract_query_number "Query 12, Query 3 and Query 7" <> Return (Some 3%Z) /\
  digits_only (replicate 4301 "1") = true /\
  extract_query_number ("Query " ++ replicate 4301 "1") = Raise ValueError.
Proof.
  split; [exists "Query 12, ", " and ", ""; reflexivity|].
  split; [reflexivity|]. split; [discriminate|].
  split; vm_compute; reflexivity.
Qed.

(** Character classes are disjoint where the pattern needs it. *)
Lemma space_not_digit (c : ascii) : is_space c = true -> is_digit c = false.
Proof.
  destruct c as [[] [] [] [] [] [] [] []]; vm_compute; intros H;
    (reflexivity || discriminate H).
Qed.

Lemma space_not_Q (c : ascii) : is_space c = true -> Ascii.eqb "Q" c = false.
Proof.
  destruct c as [[] [] [] [] [] [] [] []]; vm_compute; intros H;
    (reflexivity || discriminate H).
Qed.

Lemma digit_not_Q (c : ascii) : is_digit c = true -> Ascii.eqb "Q" c = false.
Proof.
  destruct c as [[] [] [] [] [] [] [] []]; vm_compute; intros H;
    (reflexivity || discriminate H).
Qed.

Lemma re_search_no_Q (s : string) : no_Q s = true -> re_search s = None.
Proof.
  induction s as [|c s IH]; [reflexivity|].
  cbn [no_Q]. intros H. apply andb_prop in H as [Hc Hs].
  rewrite re_search_eq. unfold match_here. cbn [literal].
  destruct (Ascii.eqb "Q" c); [discriminate Hc | auto].
Qed.

Lemma no_Q_spaces_digits (ws ds : string) :
  spaces_only ws = true -> digits_only ds = true -> no_Q (ws ++ ds) = true.
Proof.
  intros Hw Hd. induction ws as [|c ws IH]; cbn [append no_Q spaces_only] in *.
  - induction ds as [|d ds IHd]; cbn [no_Q digits_only] in *; [reflexivity|].
    apply andb_prop in Hd as [Hc Hd]. now rewrite (digit_not_Q d Hc), IHd.
  - apply andb_prop in Hw as [Hc Hw]. now rewrite (space_not_Q c Hc), IH.
Qed.

(** C4, as amended.  What the pattern accepts between "Query" and the digits
    is one SPACE character: the first such occurrence gives the result when
    its digit run has at most 4300 digits and [ValueError] when it has more,
    and a text made of "Query", any other run of whitespace and digits gives
    [None]. *)
Theorem extract_query_number_single_space :
  (forall pre ds post,
     ds <> "" -> digits_only ds = true -> starts_with_digit post = false ->
     (forall i ds', (i < String.length pre)%nat ->
                    ~ token_at (pre ++ "Query" ++ " " ++ ds ++ post) i ds') ->
     ((String.length ds <= int_max_str_digits)%nat ->
      extract_query_number (pre ++ "Query" ++ " " ++ ds ++ post)
      = Return (Some (decimal_value ds))) /\
     ((int_max_str_digits < String.length ds)%nat ->
      extract_query_number (pre ++ "Query" ++ " " ++ ds ++ post)
      = Raise ValueError)) /\
  (forall ws ds,
     spaces_only ws = true -> ws <> "" -> ws <> " " -> digits_only ds = true ->
     extract_query_number ("Query" ++ ws ++ ds) = Return None).
Proof.
  split.
  - intros pre ds post Hne Hd Hp Hmin.
    assert (Hf : first_token (pre ++ "Query" ++ " " ++ ds ++ post) (String.length pre) ds)
      by (split; [now apply (token_at_intro pre ds post) | exact Hmin]).
    split; intros Hlen.
    + now apply (extract_of_first_token _ (String.length pre) ds).
    + now apply (extract_of_long_token _ (String.length pre) ds).
  - intros ws ds Hw Hne Hne1 Hd.
    assert (Htail : re_search ("uery" ++ ws ++ ds) = None).
    { apply re_search_no_Q. cbn [append no_Q].
      rewrite (no_Q_spaces_digits ws ds Hw Hd); reflexivity. }
    assert (Hhead : match_here ("Query" ++ ws ++ ds) = None).
    { destruct (match_here ("Query" ++ ws ++ ds)) as [g|] eqn:Hm; [|reflexivity].
      exfalso. apply match_here_iff in Hm.
      destruct Hm as [pre [post [Hs [Hlen [Hg [Hdg _]]]]]].
      apply length_zero in Hlen; subst pre.
      destruct ws as [|c ws]; [congruence|].
      cbn [append] in Hs. injection Hs as Hc Hs. subst c.
      destruct ws as [|c ws]; [congruence|].
      destruct g as [|d g]; [congruence|].
      cbn [append] in Hs. injection Hs as Hcd _. subst d.
      cbn [spaces_only digits_only] in Hw, Hdg.
      apply andb_prop in Hw as [_ Hw]. apply andb_prop in Hw as [Hw _].
      apply andb_prop in Hdg as [Hdg _].
      rewrite (space_not_digit c Hw) in Hdg. discriminate Hdg. }
    unfold extract_query_number.
    rewrite re_search_eq, Hhead. cbn [append] in Htail |- *. now rewrite Htail.
Qed.

Lemma extract_query_number_single_space_witness :
  "7" <> "" /\ digits_only "7" = true /\ starts_with_digit " is best" = false /\
  (String.length "7" <= int_max_str_digits)%nat /\
  extract_query_number ("" ++ "Query" ++ " " ++ "7" ++ " is best") = Return (Some 7%Z).
Proof.
  assert (Hlen : (String.length "7" <= int_max_str_digits)%nat)
    by (apply Nat.leb_le; reflexivity).
  split; [discriminate|]. split; [reflexivity|]. split; [reflexivity|].
  split; [exact Hlen|].
  apply (proj1 (proj1 extract_query_number_single_space "" "7" " is best"
                  ltac:(discriminate) eq_refl eq_refl ltac:(simpl; intros; lia))).
  exact Hlen.
Defined.

(** C4, as stated, fails: a TAB, or two spaces, between "Query" and the
    digit is whitespace, and the extractor finds nothing; and after one
    space a run of 4301 digits gives [ValueError], not its value. *)
Lemma extract_query_number_tab_two_spaces :
  spaces_only tab = true /\ spaces_only "  " = true /\
  extract_query_number ("Query" ++ tab ++ "7") = Return None /\
  extract_query_number ("Query" ++ "  " ++ "7") = Return None /\
  digits_only (replicate 4301 "7") = true /\
  extract_query_number ("Query" ++ " " ++ replicate 4301 "7") = Raise ValueError.
Proof. repeat split; vm_compute; reflexivity. Qed.

(** A numeral without leading zero is at least the power of ten of its
    length less one. *)
Lemma digit_value_nonneg (c : ascii) : (0 <= digit_value c)%Z.
Proof. unfold digit_value; lia. Qed.

Lemma decimal_value_nonneg (s : string) : (0 <= decimal_value s)%Z.
Proof.
  induction s as [|c s IH]; cbn [decimal_value]; [lia|].
  pose proof (digit_value_nonneg c).
  assert (0 <= 10 ^ Z.of_nat (String.length s))%Z by (apply Z.pow_nonneg; lia).
  nia.
Qed.

Lemma decimal_value_leading (c : ascii) (s : string) :
  (1 <= digit_value c)%Z ->
  (10 ^ Z.of_nat (String.length s) <= decimal_value (String c s))%Z.
Proof.
  intros Hc. cbn [decimal_value].
  pose proof (decimal_value_nonneg s).
  assert (0 <= 10 ^ Z.of_nat (String.length s))%Z by (apply Z.pow_nonneg; lia).
  nia.
Qed.

Lemma nzhead_not_D0 (d d' : Decimal.uint) : Decimal.nzhead d <> Decimal.D0 d'.
Proof. induction d; simpl; auto; discriminate. Qed.

Lemma py_str_leading (n : nat) :
  n <> 0%nat ->
  exists c s, py_str n = String c s /\ (1 <= digit_value c)%Z.
Proof.
  intros Hn. unfold py_str.
  pose proof (Unsigned.to_of (Nat.to_uint n)) as Hnorm.
  rewrite Unsigned.of_to in Hnorm.
  pose proof (Unsigned.of_to n) as Hof.
  unfold Decimal.unorm in Hnorm.
  destruct (Decimal.nzhead (Nat.to_uint n)) eqn:Hnz.
  - rewrite Hnorm in Hof. vm_compute in Hof. congruence.
  - elim (nzhead_not_D0 _ _ Hnz).
  - rewrite Hnorm. eexists _, _. split; [reflexivity | vm_compute; discriminate].
  - rewrite Hnorm. eexists _, _. split; [reflexivity | vm_compute; discriminate].
  - rewrite Hnorm. eexists _, _. split; [reflexivity | vm_compute; discriminate].
  - rewrite Hnorm. eexists _, _. split; [reflexivity | vm_compute; discriminate].
  - rewrite Hnorm. eexists _, _. split; [reflexivity | vm_compute; discriminate].
  - rewrite Hnorm. eexists _, _. split; [reflexivity | vm_compute; discriminate].
  - rewrite Hnorm. eexists _, _. split; [reflexivity | vm_compute; discriminate].
  - rewrite Hnorm. eexists _, _. split; [reflexivity | vm_compute; discriminate].
  - rewrite Hnorm. eexists _, _. split; [reflexivity | vm_compute; discriminate].
Qed.

Lemma py_str_length (n : nat) :
  (Z.of_nat n < 10 ^ Z.of_nat int_max_str_digits)%Z ->
  (String.length (py_str n) <= int_max_str_digits)%nat.
Proof.
  intros Hn. destruct (Nat.eq_dec n 0) as [->|Hnz].
  - apply Nat.leb_le. reflexivity.
  - destruct (py_str_leading n Hnz) as [c [s [Hs Hc]]].
    pose proof (py_int_py_str n) as Hv. rewrite py_int_decimal, Hs in Hv.
    pose proof (decimal_value_leading c s Hc) as Hlow.
    rewrite Hs. cbn [String.length].
    destruct (Nat.le_gt_cases (S (String.length s)) int_max_str_digits) as [H|H];
      [exact H|].
    assert (10 ^ Z.of_nat int_max_str_digits <= 10 ^ Z.of_nat (String.length s))%Z
      by (apply Z.pow_le_mono_r; lia).
    lia.
Qed.

Lemma extract_numeral (n : nat) :
  (Z.of_nat n < 10 ^ Z.of_nat int_max_str_digits)%Z ->
  extract_query_number ("Query " ++ py_str n) = Return (Some (Z.of_nat n)).
Proof.
  intros Hn.
  rewrite <- py_int_py_str, py_int_decimal.
  apply (extract_of_first_token _ 0%nat (py_str n)); [|now apply py_str_length].
  split; [|intros; lia].
  exists "", ""; rewrite append_nil_r.
  repeat split; auto using py_str_nonempty, py_str_digits.
Qed.

(** C10.  The extractor checks no range: "Query 0" gives 0, every natural
    number below 10^4300 (the reach of [int]) is the result of some text,
    and so for every window of fewer candidates than that some text gives a
    number above the window's size. *)
Theorem extract_query_number_unconstrained :
  extract_query_number "I pick Query 0." = Return (Some 0%Z) /\
  (forall n : nat,
     (Z.of_nat n < 10 ^ Z.of_nat int_max_str_digits)%Z ->
     extract_query_number ("Query " ++ py_str n) = Return (Some (Z.of_nat n))) /\
  (forall window : list CodeSample,
     (Z.of_nat (List.length window) + 1 < 10 ^ Z.of_nat int_max_str_digits)%Z ->
     exists text n, extract_query_number text = Return (Some n) /\
                    (Z.of_nat (List.length window) < n)%Z).
Proof.
  split; [reflexivity|]. split; [exact extract_numeral|].
  intros window Hw. exists ("Query " ++ py_str (S (List.length window))).
  exists (Z.of_nat (S (List.length window))).
  split; [apply extract_numeral | ]; lia.
Qed.

Lemma extract_query_number_unconstrained_witness :
  (Z.of_nat (List.length (queries ["c"; "d"; "e"])) + 1
   < 10 ^ Z.of_nat int_max_str_digits)%Z /\
  exists text n, extract_query_number text = Return (Some n) /\
                 (Z.of_nat (List.length (queries ["c"; "d"; "e"])) < n)%Z.
Proof.
  assert (H : (Z.of_nat (List.length (queries ["c"; "d"; "e"])) + 1
               < 10 ^ Z.of_nat int_max_str_digits)%Z)
    by (vm_compute; reflexivity).
  split; [exact H|].
  exact (proj2 (proj2 extract_query_number_unconstrained) (queries ["c"; "d"; "e"]) H).
Defined.

(** ** Prompt Builder *)

Lemma build_loop (l : list CodeSample) (i : nat) (content : string) :
  fold_left
    (fun (st : nat * string) example =>
       let (i, content) := st in (S i, content ++ prompt_line i example))
    l (i, content)
  = ((i + List.length l)%nat, content ++ labelled i l).
Proof.
  revert i content; induction l as [|example l IH]; intros i content;
    cbn [fold_left labelled List.length].
  - now rewrite Nat.add_0_r, append_nil_r.
  - rewrite IH. f_equal; [lia | apply append_assoc].
Qed.

Lemma build_comparison_prompt_eq (code : string) (subset : list CodeSample) :
  build_comparison_prompt code subset = prompt_head code ++ labelled 0 subset.
Proof. unfold build_comparison_prompt. now rewrite build_loop. Qed.

Lemma labelled_split (l : list CodeSample) (i k : nat) (example : CodeSample) :
  nth_error l k = Some example ->
  labelled i l =
  labelled i (firstn k l) ++ prompt_line (i + k) example
  ++ labelled (i + k + 1) (skipn (S k) l).
Proof.
  revert i k; induction l as [|x l IH]; intros i [|k] H; try discriminate.
  - injection H as ->. cbn [firstn skipn labelled append].
    now rewrite !Nat.add_0_r, Nat.add_1_r.
  - cbn [nth_error] in H. cbn [firstn labelled].
    rewrite (IH (S i) k H), append_assoc.
    replace (S i + k)%nat with (i + S k)%nat by lia.
    now replace (S i + k + 1)%nat with (i + S k + 1)%nat by lia.
Qed.

Lemma labelled_fold (l : list CodeSample) (i : nat) :
  labelled i l =
  fold_right append ""
    (map (fun p : nat * CodeSample => prompt_line (fst p) (snd p))
         (combine (seq i (List.length l)) l)).
Proof.
  revert i; induction l as [|x l IH]; intros i; [reflexivity|].
  cbn [labelled List.length seq combine map fold_right fst snd].
  now rewrite IH.
Qed.

(** C8.  The prompt is the head followed by one line per candidate, in the
    given order, the candidate at 0-based position [i] on the line "Query ",
    the decimal numeral of [i + 1], ": ", the candidate's text and a newline.
    So the line of candidate [i] has before it the lines numbered 1 to [i]
    and after it those numbered from [i + 2]. *)
Theorem build_comparison_prompt_labels
    (code : string) (subset : list CodeSample) (i : nat) (example : CodeSample) :
  nth_error subset i = Some example ->
  build_comparison_prompt code subset =
    prompt_head code
    ++ fold_right append ""
         (map (fun p : nat * CodeSample =>
                 "Query " ++ py_str (fst p + 1) ++ ": " ++ query (snd p) ++ nl)
              (combine (seq 0 (List.length subset)) subset))
  /\ build_comparison_prompt code subset =
    (prompt_head code ++ labelled 0 (firstn i subset))
    ++ ("Query " ++ py_str (i + 1) ++ ": " ++ query example ++ nl)
    ++ labelled (i + 1) (skipn (S i) subset)
  /\ py_int (py_str (i + 1)) = (Z.of_nat i + 1)%Z.
Proof.
  intros H. split; [|split].
  - rewrite build_comparison_prompt_eq, labelled_fold. reflexivity.
  - rewrite build_comparison_prompt_eq, (labelled_split subset 0 i example H).
    now rewrite append_assoc.
  - rewrite py_int_py_str; lia.
Qed.

Lemma build_comparison_prompt_labels_witness :
  nth_error (queries ["a"; "b"; "c"]) 1 = Some {| query := "b"; answer := "" |} /\
  build_comparison_prompt "x" (queries ["a"; "b"; "c"]) =
    (prompt_head "x" ++ ("Query 1: a" ++ nl))
    ++ ("Query 2: b" ++ nl) ++ ("Query 3: c" ++ nl).
Proof.
  split; [reflexivity|].
  apply (proj1 (proj2 (build_comparison_prompt_labels "x" (queries ["a"; "b"; "c"]) 1
                         {| query := "b"; answer := "" |} eq_refl))).
Defined.

(** The label written by the builder is read back by the extractor. *)
Lemma extract_prompt_line (i : nat) (example : CodeSample) :
  (Z.of_nat i + 1 < 10 ^ Z.of_nat int_max_str_digits)%Z ->
  extract_query_number (prompt_line i example) = Return (Some (Z.of_nat i + 1)%Z).
Proof.
  intros Hi. unfold prompt_line.
  replace (Z.of_nat i + 1)%Z with (py_int (py_str (i + 1)))
    by (rewrite py_int_py_str; lia).
  rewrite py_int_decimal.
  apply (extract_of_first_token _ 0%nat); [|apply py_str_length; lia].
  split; [|intros; lia].
  exists "", (": " ++ query example ++ nl).
  repeat split; auto using py_str_nonempty, py_str_digits.
Qed.

(** ** Position Resolver *)

Lemma py_getitem_empty (A : Type) (key : Z) : @py_getitem A [] key = Raise IndexError.
Proof.
  unfold py_getitem; simpl.
  destruct (key <? 0)%Z eqn:Hk.
  - rewrite Z.add_0_r, Hk; reflexivity.
  - apply Z.ltb_ge in Hk. apply Z.leb_le in Hk. rewrite Hk; reflexivity.
Qed.

Lemma py_getitem_inside (A : Type) (seq : list A) (key : Z) :
  (0 <= key < Z.of_nat (List.length seq))%Z ->
  exists x, nth_error seq (Z.to_nat key) = Some x /\ py_getitem seq key = Return x.
Proof.
  intros Hk. unfold py_getitem.
  destruct (Z.ltb_spec key 0); [lia|].
  destruct (Z.leb_spec (Z.of_nat (List.length seq)) key); [lia|]. simpl.
  destruct (nth_error seq (Z.to_nat key)) as [x|] eqn:Hn; [eauto|].
  apply nth_error_None in Hn; lia.
Qed.

Lemma py_getitem_from_end (A : Type) (seq : list A) (key : Z) :
  (- Z.of_nat (List.length seq) <= key < 0)%Z ->
  exists x, nth_error seq (Z.to_nat (key + Z.of_nat (List.length seq))) = Some x /\
            py_getitem seq key = Return x.
Proof.
  intros Hk. unfold py_getitem.
  destruct (Z.ltb_spec key 0); [|lia].
  destruct (Z.ltb_spec (key + Z.of_nat (List.length seq)) 0); [lia|].
  destruct (Z.leb_spec (Z.of_nat (List.length seq)) key); [lia|]. simpl.
  destruct (nth_error seq (Z.to_nat (key + Z.of_nat (List.length seq)))) as [x|] eqn:Hn;
    [eauto|].
  apply nth_error_None in Hn; lia.
Qed.

Lemma py_getitem_outside (A : Type) (seq : list A) (key : Z) :
  (key < - Z.of_nat (List.length seq) \/ Z.of_nat (List.length seq) <= key)%Z ->
  py_getitem seq key = Raise IndexError.
Proof.
  intros Hk. unfold py_getitem.
  destruct (Z.ltb_spec key 0); destruct (Z.ltb_spec (key + Z.of_nat (List.length seq)) 0);
    destruct (Z.leb_spec (Z.of_nat (List.length seq)) key); simpl; try reflexivity; lia.
Qed.

Lemma list_index_first (l : list string) (x : string) (i : nat) :
  nth_error l i = Some x ->
  (forall k, (k < i)%nat -> nth_error l k <> Some x) ->
  list_index l x = Return i.
Proof.
  revert i; induction l as [|y l IH]; intros [|i] Hi Hmin; try discriminate; simpl in *.
  - injection Hi as ->. now rewrite String.eqb_refl.
  - destruct (String.eqb_spec y x) as [->|Hyx].
    + elim (Hmin 0%nat); [lia | reflexivity].
    + rewrite (IH i Hi); [reflexivity|].
      intros k Hk. apply (Hmin (S k)). lia.
Qed.

Lemma list_index_found (l : list string) (x : string) :
  In x l ->
  exists i, list_index l x = Return i /\ nth_error l i = Some x /\
            forall k, (k < i)%nat -> nth_error l k <> Some x.
Proof.
  induction l as [|y l IH]; intros Hin; [contradiction|]. simpl.
  destruct (String.eqb_spec y x) as [->|Hyx].
  - exists 0%nat. repeat split; intros; lia.
  - destruct Hin as [Hin|Hin]; [congruence|].
    destruct (IH Hin) as [i [Hi [Hn Hmin]]]. exists (S i). rewrite Hi.
    repeat split; auto.
    intros [|k] Hk; simpl; [congruence | apply Hmin; lia].
Qed.

Lemma list_index_missing (l : list string) (x : string) :
  ~ In x l -> list_index l x = Raise ValueError.
Proof.
  induction l as [|y l IH]; intros Hin; [reflexivity|]. simpl.
  destruct (String.eqb_spec y x) as [->|Hyx]; [elim Hin; now left|].
  rewrite IH; [reflexivity | intros H; apply Hin; now right].
Qed.

Lemma find_paragraph_index_returns (l : list string) (x : string) :
  exists o, snd (find_paragraph_index l x) = Return o.
Proof.
  unfold find_paragraph_index.
  destruct (in_dec string_dec x l) as [Hin|Hin].
  - destruct (list_index_found l x Hin) as [i [Hi _]]. rewrite Hi.
    exists (Some i); reflexivity.
  - rewrite (list_index_missing l x Hin). exists None; reflexivity.
Qed.

Lemma resolve_of_row (subset data : list CodeSample) (q : Z) (row : CodeSample) :
  py_getitem subset (q - 1) = Return row ->
  exists r, resolve q subset data = Return r /\ matched_query_text r = query row.
Proof.
  intros Hrow. unfold resolve. rewrite Hrow. cbn [bind].
  destruct (find_paragraph_index_returns (map query data) (query row)) as [o Ho].
  rewrite Ho. cbn [bind]. eauto.
Qed.

(** C6.  When the text occurs in the collection, the lookup returns the
    least position that holds it, and prints nothing. *)
Theorem find_paragraph_index_first_occurrence
    (full_collection : list string) (candidate_text : string) :
  In candidate_text full_collection ->
  exists i,
    find_paragraph_index full_collection candidate_text = ([], Return (Some i)) /\
    nth_error full_collection i = Some candidate_text /\
    forall k, (k < i)%nat -> nth_error full_collection k <> Some candidate_text.
Proof.
  intros Hin.
  destruct (list_index_found full_collection candidate_text Hin) as [i [Hi [Hn Hmin]]].
  exists i. unfold find_paragraph_index. rewrite Hi. auto.
Qed.

Lemma find_paragraph_index_first_occurrence_witness :
  In "b" ["a"; "b"; "c"; "b"] /\
  exists i,
    find_paragraph_index ["a"; "b"; "c"; "b"] "b" = ([], Return (Some i)) /\
    nth_error ["a"; "b"; "c"; "b"] i = Some "b" /\
    forall k, (k < i)%nat -> nth_error ["a"; "b"; "c"; "b"] k <> Some "b".
Proof.
  split; [simpl; auto|].
  apply (find_paragraph_index_first_occurrence ["a"; "b"; "c"; "b"] "b").
  simpl; auto.
Defined.

(** C7.  When the text does not occur in the collection, the lookup raises
    nothing: it prints its diagnostic line and returns [None]. *)
Theorem find_paragraph_index_not_found
    (full_collection : list string) (candidate_text : string) :
  ~ In candidate_text full_collection ->
  find_paragraph_index full_collection candidate_text
  = ([not_found_line], Return None).
Proof.
  intros Hin. unfold find_paragraph_index.
  now rewrite (list_index_missing full_collection candidate_text Hin).
Qed.

Lemma find_paragraph_index_not_found_witness :
  ~ In "z" ["a"; "b"] /\
  find_paragraph_index ["a"; "b"] "z" = ([not_found_line], Return None).
Proof.
  assert (H : ~ In "z" ["a"; "b"])
    by (simpl; intros [H|[H|H]]; [discriminate H | discriminate H | exact H]).
  split; [exact H | exact (find_paragraph_index_not_found ["a"; "b"] "z" H)].
Defined.

(** C2, as amended.  For a window of [K >= 1] candidates the access
    [subset[query_number - 1]] succeeds for every selection in [1..K], with
    the candidate at offset [query_number - 1] as the matched text, and
    raises [IndexError] for every selection above [K]. *)
Theorem resolve_bounds (subset data : list CodeSample) (q : Z) :
  (1 <= List.length subset)%nat ->
  let K := Z.of_nat (List.length subset) in
  ((1 <= q <= K)%Z ->
     exists row r, nth_error subset (Z.to_nat (q - 1)) = Some row /\
                   resolve q subset data = Return r /\
                   matched_query_text r = query row) /\
  ((K < q)%Z -> resolve q subset data = Raise IndexError).
Proof.
  intros HK K. split.
  - intros Hq.
    destruct (py_getitem_inside _ subset (q - 1)) as [row [Hn Hg]]; [lia|].
    destruct (resolve_of_row subset data q row Hg) as [r [Hr Ht]].
    exists row, r; auto.
  - intros Hq. unfold resolve.
    rewrite py_getitem_outside; [reflexivity | lia].
Qed.

(** Below 1 nothing is checked either: a selection in [1 - K .. 0] counts
    from the end of the window, 0 being its last candidate, and only those
    at or below [- K] raise [IndexError]. *)
Lemma resolve_from_end (subset data : list CodeSample) (q : Z) :
  let K := Z.of_nat (List.length subset) in
  ((- K < q <= 0)%Z ->
     exists row r, nth_error subset (Z.to_nat (K + q - 1)) = Some row /\
                   resolve q subset data = Return r /\
                   matched_query_text r = query row) /\
  ((q <= - K)%Z -> resolve q subset data = Raise IndexError).
Proof.
  intros K. split.
  - intros Hq.
    destruct (py_getitem_from_end _ subset (q - 1)) as [row [Hn Hg]]; [lia|].
    destruct (resolve_of_row subset data q row Hg) as [r [Hr Ht]].
    exists row, r. repeat split; auto.
    rewrite <- Hn. f_equal. unfold K. lia.
  - intros Hq. unfold resolve.
    rewrite py_getitem_outside; [reflexivity | lia].
Qed.

Lemma resolve_bounds_witness :
  (1 <= List.length (queries ["c"; "d"; "e"]))%nat /\
  resolve 4 (queries ["c"; "d"; "e"]) (queries ["a"; "b"; "c"; "d"; "e"])
  = Raise IndexError.
Proof.
  split; [simpl; lia|].
  apply (proj2 (resolve_bounds (queries ["c"; "d"; "e"])
                  (queries ["a"; "b"; "c"; "d"; "e"]) 4 ltac:(simpl; lia))).
  simpl; lia.
Defined.

(** C2, as stated, fails: selection 0 on a window of three is not refused,
    it resolves to the last candidate. *)
Lemma resolve_zero_selects_last :
  resolve 0 (queries ["c"; "d"; "e"]) (queries ["a"; "b"; "c"; "d"; "e"])
  = Return {| matched_query_text := "e"; index_position := Some 4%nat |} /\
  forall e, resolve 0 (queries ["c"; "d"; "e"]) (queries ["a"; "b"; "c"; "d"; "e"])
            <> Raise e.
Proof. split; [reflexivity | discriminate]. Qed.

(** A window selected by [select_range] is the slice it names. *)
Lemma select_range_slice (data subset : list CodeSample) (s e : nat) :
  (s < e)%nat -> select_range data s e = Return subset -> subset <> [] ->
  (e <= List.length data)%nat /\ subset = firstn (e - s) (skipn s data).
Proof.
  unfold select_range. intros Hse.
  destruct data as [|x data]; [intros [= <-] Hne; now elim Hne|].
  destruct (Nat.leb_spec s e); [|lia].
  destruct (Nat.ltb_spec s (List.length (x :: data)));
    destruct (Nat.leb_spec e (List.length (x :: data)));
    cbn [andb]; try discriminate.
  intros [= <-] _; auto.
Qed.

Lemma select_range_window (data : list CodeSample) (s e : nat) :
  (s < e <= List.length data)%nat ->
  select_range data s e = Return (firstn (e - s) (skipn s data)).
Proof.
  intros Hse. unfold select_range.
  destruct data as [|x data]; [simpl in Hse; lia|].
  destruct (Nat.leb_spec s e); [|lia].
  destruct (Nat.ltb_spec s (List.length (x :: data))); [|lia].
  destruct (Nat.leb_spec e (List.length (x :: data))); [reflexivity | lia].
Qed.

Lemma nth_error_slice (A : Type) (l : list A) (s n k : nat) :
  (k < n)%nat -> nth_error (firstn n (skipn s l)) k = nth_error l (s + k).
Proof.
  intros Hk. rewrite nth_error_firstn.
  destruct (Nat.ltb_spec k n); [|lia].
  apply nth_error_skipn.
Qed.

(** C5, as amended.  For the window [data[s:e]] and an in-window selection
    [j], if the selected text stands at no position of the collection before
    [s + (j - 1)], neither outside the window nor at a smaller offset inside
    it, then resolving [j] returns the absolute index [s + (j - 1)]. *)
Theorem resolve_round_trip
    (data subset : list CodeSample) (s e j : nat) (row : CodeSample) :
  (s < e)%nat -> select_range data s e = Return subset ->
  (1 <= j <= e - s)%nat ->
  nth_error subset (j - 1) = Some row ->
  (forall k, (k < s + (j - 1))%nat -> nth_error (map query data) k <> Some (query row)) ->
  resolve (Z.of_nat j) subset data
  = Return {| matched_query_text := query row;
              index_position := Some (s + (j - 1))%nat |}.
Proof.
  intros Hse Hsel Hj Hrow Hmin.
  assert (Hne : subset <> []) by (intros ->; destruct (j - 1)%nat; discriminate Hrow).
  destruct (select_range_slice data subset s e Hse Hsel Hne) as [He Hsub].
  assert (Hlen : List.length subset = (e - s)%nat).
  { rewrite Hsub, length_firstn, length_skipn. lia. }
  assert (Habs : nth_error data (s + (j - 1)) = Some row).
  { rewrite <- Hrow, Hsub. symmetry. apply nth_error_slice. lia. }
  unfold resolve.
  destruct (py_getitem_inside _ subset (Z.of_nat j - 1)) as [x [Hn Hg]]; [lia|].
  replace (Z.to_nat (Z.of_nat j - 1)) with (j - 1)%nat in Hn by lia.
  rewrite Hg. cbn [bind]. assert (x = row) as -> by congruence.
  unfold find_paragraph_index.
  rewrite (list_index_first (map query data) (query row) (s + (j - 1))); auto.
  rewrite nth_error_map, Habs; reflexivity.
Qed.

Lemma resolve_round_trip_witness :
  select_range (queries ["a"; "b"; "c"; "d"; "e"]) 2 5 = Return (queries ["c"; "d"; "e"]) /\
  resolve 2 (queries ["c"; "d"; "e"]) (queries ["a"; "b"; "c"; "d"; "e"])
  = Return {| matched_query_text := "d"; index_position := Some 3%nat |}.
Proof.
  split; [reflexivity|].
  apply (resolve_round_trip (queries ["a"; "b"; "c"; "d"; "e"]) (queries ["c"; "d"; "e"])
           2 5 2 {| query := "d"; answer := "" |});
    [lia | reflexivity | lia | reflexivity |].
  intros k Hk.
  destruct k as [|[|[|k]]]; simpl; [discriminate | discriminate | discriminate | lia].
Defined.

(** C5, as stated, fails: a text that occurs nowhere outside the window may
    still occur at a smaller offset inside it, and the lookup stops there. *)
Lemma resolve_duplicate_inside_window :
  select_range (queries ["x"; "x"]) 0 2 = Return (queries ["x"; "x"]) /\
  nth_error (queries ["x"; "x"]) (2 - 1) = Some {| query := "x"; answer := "" |} /\
  (forall k, (k < 0 \/ 2 <= k)%nat ->
             nth_error (map query (queries ["x"; "x"])) k <> Some "x") /\
  resolve 2 (queries ["x"; "x"]) (queries ["x"; "x"])
  = Return {| matched_query_text := "x"; index_position := Some 0%nat |} /\
  Some 0%nat <> Some (0 + (2 - 1))%nat.
Proof.
  repeat split; try discriminate.
  intros k [Hk|Hk]; [lia|].
  destruct k as [|[|k]]; [lia | lia |]. simpl. destruct k; discriminate.
Qed.

(** ** Empty candidate list *)

Lemma resolve_empty (q : Z) (data : list CodeSample) :
  resolve q [] data = Raise IndexError.
Proof. unfold resolve. now rewrite py_getitem_empty. Qed.

(** C3, as amended.  With no candidates the builder raises nothing: it
    returns the head of the prompt (reference code and instruction) without
    any candidate line, and the pipeline sends that prompt to the model.
    The window is empty, for one, when its start and its end are the same
    row of the dataset. *)
Theorem build_comparison_prompt_empty :
  (forall code, build_comparison_prompt code [] = prompt_head code) /\
  (forall call_openai_model data reference s e row,
     py_getitem data reference = Return row ->
     select_range data s e = Return [] ->
     run_matcher call_openai_model data reference s e =
       (open_gen <- call_openai_model (prompt_head (answer row)) ;;
        query_number <- match open_gen with
                        | Some response_text => extract_query_number response_text
                        | None => Raise TypeError
                        end ;;
        match query_number with
        | Some _ => Raise IndexError
        | None => Return None
        end)) /\
  (forall data s, (s < List.length data)%nat -> select_range data s s = Return []).
Proof.
  split; [reflexivity|]. split.
  - intros call data reference s e row Hrow Hsel.
    unfold run_matcher. rewrite Hrow, Hsel. cbn [bind].
    change (build_comparison_prompt (answer row) []) with (prompt_head (answer row)).
    destruct (call (prompt_head (answer row))) as [open_gen|err]; cbn [bind];
      [|reflexivity].
    destruct (match open_gen with
              | Some response_text => extract_query_number response_text
              | None => Raise TypeError
              end) as [[q|]|err]; cbn [bind]; try reflexivity.
    now rewrite resolve_empty.
  - intros data s Hs. unfold select_range.
    destruct data as [|x data]; [reflexivity|].
    destruct (Nat.leb_spec s s); [|lia].
    destruct (Nat.ltb_spec s (List.length (x :: data))); [|lia].
    destruct (Nat.leb_spec s (List.length (x :: data))); [|lia].
    cbn [andb]. now rewrite Nat.sub_diag.
Qed.

Lemma build_comparison_prompt_empty_witness :
  py_getitem (queries ["a"; "b"]) 1 = Return {| query := "b"; answer := "" |} /\
  select_range (queries ["a"; "b"]) 1 1 = Return [] /\
  run_matcher (fun prompt => Raise (UpstreamError "prompt" prompt)) (queries ["a"; "b"]) 1 1 1
  = Raise (UpstreamError "prompt" (prompt_head "")).
Proof.
  split; [reflexivity|]. split; [reflexivity|].
  apply (proj1 (proj2 build_comparison_prompt_empty)
           (fun prompt => Raise (UpstreamError "prompt" prompt)) (queries ["a"; "b"])
           1%Z 1%nat 1%nat {| query := "b"; answer := "" |} eq_refl eq_refl).
Defined.

(** C3, as stated, fails: on an empty candidate list the builder returns a
    prompt.  With two rows and the window from row 1 to row 1 the selection
    is empty, and the model is called with the bare head (here the model
    echoes the prompt it received in the error it raises). *)
Lemma build_comparison_prompt_empty_returns :
  build_comparison_prompt "print(1)" [] = prompt_head "print(1)" /\
  select_range
    [{| query := "a"; answer := "print(1)" |}; {| query := "b"; answer := "" |}] 1 1
  = Return [] /\
  run_matcher (fun prompt => Raise (UpstreamError "prompt" prompt))
    [{| query := "a"; answer := "print(1)" |}; {| query := "b"; answer := "" |}] 0 1 1
  = Raise (UpstreamError "prompt" (prompt_head "print(1)")) /\
  run_matcher (fun _ => Return (Some "no idea"))
    [{| query := "a"; answer := "print(1)" |}; {| query := "b"; answer := "" |}] 0 1 1
  = Return None.
Proof. repeat split; reflexivity. Qed.

(** ** API key *)

Lemma lstrip_split (s : string) :
  exists l, s = l ++ lstrip s /\ spaces_only l = true /\
            starts_with_space (lstrip s) = false.
Proof.
  induction s as [|c s [l [Hs [Hl Hst]]]]; cbn [lstrip].
  - exists ""; auto.
  - destruct (is_space c) eqn:Hc.
    + exists (String c l). cbn [append spaces_only]. rewrite <- Hs, Hc, Hl; auto.
    + exists "". cbn [append spaces_only starts_with_space]; auto.
Qed.

Lemma rstrip_split (s : string) :
  exists r, s = rstrip s ++ r /\ spaces_only r = true /\
            ends_with_space (rstrip s) = false.
Proof.
  induction s as [|c s [r [Hs [Hr He]]]]; cbn [rstrip].
  - exists ""; auto.
  - destruct (rstrip s) as [|c' t] eqn:Hrs.
    + cbn [append] in Hs. subst r.
      destruct (is_space c) eqn:Hc.
      * exists (String c s). cbn [append spaces_only]. rewrite Hc, Hr; auto.
      * exists s. cbn [append ends_with_space]; auto.
    + exists r. cbn [append ends_with_space] in *. rewrite <- Hs; auto.
Qed.

Lemma rstrip_start (s : string) :
  starts_with_space s = false -> starts_with_space (rstrip s) = false.
Proof.
  destruct s as [|c s]; [reflexivity|]. cbn [rstrip starts_with_space]. intros Hc.
  destruct (rstrip s); [rewrite Hc|]; auto.
Qed.

Lemma strip_spec (s : string) :
  exists l r, s = l ++ strip s ++ r /\
              spaces_only l = true /\ spaces_only r = true /\
              starts_with_space (strip s) = false /\
              ends_with_space (strip s) = false.
Proof.
  destruct (lstrip_split s) as [l [Hs [Hl Hst]]].
  destruct (rstrip_split (lstrip s)) as [r [Hs' [Hr He]]].
  exists l, r. unfold strip.
  split; [rewrite <- Hs'; exact Hs|].
  auto using rstrip_start.
Qed.

(** C9.  When the file is not found, [load_api_key] raises [RuntimeError]
    with a message that contains the path; when reading fails otherwise, it
    raises [RuntimeError] with a message that contains the failure's text;
    in neither case does it return.  When the file is read, it returns the
    content without its leading and trailing whitespace. *)
Theorem load_api_key_outcomes (open_read : string -> read_result) (path : string) :
  (open_read path = ReadNotFound ->
     exists msg, load_api_key open_read path = Raise (RuntimeError msg) /\
                 contains path msg) /\
  (forall str_e, open_read path = ReadFailed str_e ->
     exists msg, load_api_key open_read path = Raise (RuntimeError msg) /\
                 contains str_e msg) /\
  ((forall content, open_read path <> ReadText content) ->
     exists msg, load_api_key open_read path = Raise (RuntimeError msg)) /\
  (forall content, open_read path = ReadText content ->
     load_api_key open_read path = Return (strip content) /\
     exists l r, content = l ++ strip content ++ r /\
                 spaces_only l = true /\ spaces_only r = true /\
                 starts_with_space (strip content) = false /\
                 ends_with_space (strip content) = false).
Proof.
  unfold load_api_key. split; [|split; [|split]].
  - intros ->. eexists; split; [reflexivity|].
    exists "API key file '", "' not found."; reflexivity.
  - intros str_e ->. eexists; split; [reflexivity|].
    exists "Error loading API key: ", "". now rewrite append_nil_r.
  - intros Hno. destruct (open_read path) as [content| |str_e]; eauto.
    elim (Hno content); reflexivity.
  - intros content ->. split; [reflexivity | apply strip_spec].
Qed.

Lemma load_api_key_outcomes_witness :
  (exists msg, load_api_key (fun _ => ReadNotFound) "open_ai_API.txt"
               = Raise (RuntimeError msg) /\ contains "open_ai_API.txt" msg) /\
  load_api_key (fun _ => ReadText (" sk-123" ++ nl)) "open_ai_API.txt" = Return "sk-123".
Proof.
  split.
  - apply (proj1 (load_api_key_outcomes (fun _ => ReadNotFound) "open_ai_API.txt")).
    reflexivity.
  - apply (proj1 (proj2 (proj2 (proj2
      (load_api_key_outcomes (fun _ => ReadText (" sk-123" ++ nl)) "open_ai_API.txt")))
      (" sk-123" ++ nl) eq_refl)).
Defined.

(** ** Further properties of the extractor *)

Lemma int_acc_nonneg (s : string) (acc : Z) : (0 <= acc)%Z -> (0 <= int_acc acc s)%Z.
Proof.
  revert acc; induction s as [|c s IH]; intros acc Hacc; cbn [int_acc]; [exact Hacc|].
  apply IH. unfold digit_value. lia.
Qed.

(** X1.  The extractor never yields a negative number: the pattern has no
    sign, so the least selection it can produce is 0. *)
Theorem extract_query_number_nonneg (text : string) (n : Z) :
  extract_query_number text = Return (Some n) -> (0 <= n)%Z.
Proof.
  unfold extract_query_number, checked_int.
  destruct (re_search text) as [g|]; [|discriminate].
  destruct (int_max_str_digits <? String.length g)%nat; cbn [bind]; [discriminate|].
  intros [= <-]. apply int_acc_nonneg. lia.
Qed.

Lemma extract_query_number_nonneg_witness :
  extract_query_number "Query 0" = Return (Some 0%Z) /\ (0 <= 0)%Z.
Proof.
  split; [reflexivity|].
  apply (extract_query_number_nonneg "Query 0" 0 eq_refl).
Defined.

Lemma re_search_skip (pre text : string) :
  no_Q pre = true -> re_search (pre ++ text) = re_search text.
Proof.
  induction pre as [|c pre IH]; [reflexivity|].
  cbn [no_Q append]. intros H. apply andb_prop in H as [Hc Hpre].
  rewrite re_search_eq. unfold match_here at 1. cbn [literal].
  destruct (Ascii.eqb "Q" c); [discriminate Hc | auto].
Qed.

(** X2.  What stands before the first capital Q of the answer plays no
    part, and an answer without any capital Q, such as one that writes
    "query 3" in lower case, gives [None]. *)
Theorem extract_query_number_skips_prefix (pre text : string) :
  no_Q pre = true ->
  extract_query_number (pre ++ text) = extract_query_number text /\
  extract_query_number pre = Return None.
Proof.
  intros Hpre. unfold extract_query_number. split.
  - now rewrite re_search_skip.
  - now rewrite re_search_no_Q.
Qed.

Lemma extract_query_number_skips_prefix_witness :
  no_Q "the best match is query 3, i.e. " = true /\
  extract_query_number ("the best match is query 3, i.e. " ++ "Query 4")
  = extract_query_number "Query 4" /\
  extract_query_number "the best match is query 3, i.e. " = Return None.
Proof.
  split; [reflexivity|].
  apply (extract_query_number_skips_prefix "the best match is query 3, i.e. " "Query 4").
  reflexivity.
Defined.

Lemma starts_with_digit_append (post b : string) :
  starts_with_digit post = false -> starts_with_digit b = false ->
  starts_with_digit (post ++ b) = false.
Proof. destruct post; auto. Qed.

Lemma match_here_append (a b g : string) :
  match_here a = Some g -> starts_with_digit b = false ->
  match_here (a ++ b) = Some g.
Proof.
  intros Ha Hb. apply match_here_iff in Ha. apply match_here_iff.
  destruct Ha as [pre [post [Hs [Hlen [Hne [Hd Hp]]]]]].
  exists pre, (post ++ b). repeat split; auto using starts_with_digit_append.
  rewrite Hs, !append_assoc. reflexivity.
Qed.

Lemma match_here_none_append (a b : string) :
  match_here a = None -> (7 <= String.length a)%nat -> match_here (a ++ b) = None.
Proof.
  intros Ha Hlen.
  destruct a as [|c1 [|c2 [|c3 [|c4 [|c5 [|c6 [|c7 a]]]]]]]; simpl in Hlen; try lia.
  revert Ha. unfold match_here. cbn [append literal].
  destruct (Ascii.eqb "Q" c1); [|reflexivity].
  destruct (Ascii.eqb "u" c2); [|reflexivity].
  destruct (Ascii.eqb "e" c3); [|reflexivity].
  destruct (Ascii.eqb "r" c4); [|reflexivity].
  destruct (Ascii.eqb "y" c5); [|reflexivity].
  destruct (Ascii.eqb " " c6); [|reflexivity].
  cbn [digit_run]. destruct (is_digit c7); [discriminate | reflexivity].
Qed.

Lemma re_search_length (s g : string) :
  re_search s = Some g -> (7 <= String.length s)%nat.
Proof.
  intros Hs. destruct (re_search_some s g Hs) as [i [[pre [post [Ht [_ [Hne _]]]]] _]].
  rewrite Ht, !length_append. destruct g; [congruence|]. simpl. lia.
Qed.

Lemma re_search_append (text suffix g : string) :
  re_search text = Some g -> starts_with_digit suffix = false ->
  re_search (text ++ suffix) = Some g.
Proof.
  intros Hs Hb. induction text as [|c text IH].
  - discriminate Hs.
  - rewrite re_search_eq in Hs. rewrite re_search_eq.
    destruct (match_here (String c text)) as [g0|] eqn:Hm.
    + now rewrite (match_here_append _ suffix g0 Hm Hb).
    + rewrite (match_here_none_append _ suffix Hm).
      * cbn [append]. auto.
      * apply re_search_length in Hs. simpl. lia.
Qed.

(** X3.  Once a text yields a selection, so does every continuation of it
    that does not begin with a digit, and the selection is the same: an
    answer cut short after its first token is read like the full answer. *)
Theorem extract_query_number_continuation (text suffix : string) (n : Z) :
  extract_query_number text = Return (Some n) -> starts_with_digit suffix = false ->
  extract_query_number (text ++ suffix) = Return (Some n).
Proof.
  unfold extract_query_number.
  destruct (re_search text) as [g|] eqn:Hs; [|discriminate].
  intros Hn Hb. now rewrite (re_search_append text suffix g Hs Hb).
Qed.

Lemma extract_query_number_continuation_witness :
  extract_query_number "**Query 91" = Return (Some 91%Z) /\
  starts_with_digit "** is the most similar; Query 5 is not" = false /\
  extract_query_number ("**Query 91" ++ "** is the most similar; Query 5 is not")
  = Return (Some 91%Z).
Proof.
  split; [reflexivity|]. split; [reflexivity|].
  apply (extract_query_number_continuation "**Query 91"
           "** is the most similar; Query 5 is not" 91 eq_refl eq_refl).
Defined.

(** ** Further properties of the resolver *)

Lemma py_getitem_raise (A : Type) (seq : list A) (key : Z) (e : exn) :
  py_getitem seq key = Raise e -> e = IndexError.
Proof.
  unfold py_getitem.
  destruct (_ || _); [now intros [= <-]|].
  destruct (nth_error seq _); [discriminate | now intros [= <-]].
Qed.

Lemma py_getitem_In (A : Type) (seq : list A) (key : Z) (x : A) :
  py_getitem seq key = Return x -> In x seq.
Proof.
  unfold py_getitem.
  destruct (_ || _); [discriminate|].
  destruct (nth_error seq _) eqn:Hn; [|discriminate].
  intros [= <-]. eapply nth_error_In; eauto.
Qed.

Lemma py_getitem_nonneg (A : Type) (seq : list A) (key : Z) (x : A) :
  (0 <= key)%Z -> py_getitem seq key = Return x ->
  nth_error seq (Z.to_nat key) = Some x.
Proof.
  intros Hk. unfold py_getitem.
  destruct (Z.ltb_spec key 0); [lia|].
  destruct (_ || _); [discriminate|].
  destruct (nth_error seq _); [now intros [= <-] | discriminate].
Qed.

Lemma resolve_inv (q : Z) (subset data : list CodeSample) (r : ResolvedMatch) :
  resolve q subset data = Return r ->
  exists row, py_getitem subset (q - 1) = Return row /\
              matched_query_text r = query row /\
              snd (find_paragraph_index (map query data) (query row))
              = Return (index_position r).
Proof.
  unfold resolve.
  destruct (py_getitem subset (q - 1)) as [row|e]; [|discriminate]. cbn [bind].
  destruct (snd (find_paragraph_index (map query data) (query row))) as [o|e] eqn:Hf;
    [|discriminate].
  cbn [bind]. intros [= <-]. exists row. split; [reflexivity|]. split; [reflexivity | exact Hf].
Qed.

Lemma find_paragraph_index_inv (l : list string) (x : string) (o : option nat) :
  snd (find_paragraph_index l x) = Return o ->
  match o with
  | Some k => nth_error l k = Some x /\
              forall k', (k' < k)%nat -> nth_error l k' <> Some x
  | None => ~ In x l
  end.
Proof.
  unfold find_paragraph_index.
  destruct (in_dec string_dec x l) as [Hin|Hin].
  - destruct (list_index_found l x Hin) as [i [Hi [Hn Hmin]]]. rewrite Hi.
    intros [= <-]. auto.
  - rewrite (list_index_missing l x Hin). now intros [= <-].
Qed.

(** X4.  Whatever the selection and the window, a resolved match is
    consistent with the collection: a reported index is the first position
    whose query text equals the matched text, and no index is reported
    exactly when that text is absent from the collection. *)
Theorem resolve_result_consistent
    (q : Z) (subset data : list CodeSample) (r : ResolvedMatch) :
  resolve q subset data = Return r ->
  match index_position r with
  | Some k =>
      nth_error (map query data) k = Some (matched_query_text r) /\
      forall k', (k' < k)%nat ->
                 nth_error (map query data) k' <> Some (matched_query_text r)
  | None => ~ In (matched_query_text r) (map query data)
  end.
Proof.
  intros Hr. destruct (resolve_inv q subset data r Hr) as [row [_ [Ht Hf]]].
  rewrite Ht. now apply find_paragraph_index_inv.
Qed.

Lemma resolve_result_consistent_witness :
  resolve 1 (queries ["z"]) (queries ["a"; "b"])
  = Return {| matched_query_text := "z"; index_position := None |} /\
  ~ In "z" (map query (queries ["a"; "b"])).
Proof.
  split; [reflexivity|].
  apply (resolve_result_consistent 1 (queries ["z"]) (queries ["a"; "b"])
           {| matched_query_text := "z"; index_position := None |} eq_refl).
Defined.

Lemma slice_In (A : Type) (l : list A) (s n : nat) (x : A) :
  In x (firstn n (skipn s l)) -> In x l.
Proof.
  intros H.
  rewrite <- (firstn_skipn s l). apply in_or_app; right.
  rewrite <- (firstn_skipn n (skipn s l)). apply in_or_app; now left.
Qed.

Lemma select_range_incl (data subset : list CodeSample) (s e : nat) (row : CodeSample) :
  select_range data s e = Return subset -> In row subset -> In row data.
Proof.
  unfold select_range.
  destruct data as [|x data]; [intros [= <-] []|].
  destruct (s <=? e)%nat; [|intros [= <-] []].
  destruct (_ && _); [|discriminate].
  intros [= <-] Hin. eapply slice_In; eauto.
Qed.

Lemma select_range_empty_range (data subset : list CodeSample) (s e : nat) :
  (e <= s)%nat -> select_range data s e = Return subset -> subset = [].
Proof.
  unfold select_range. intros Hes.
  destruct data as [|x data]; [now intros [= <-]|].
  destruct (s <=? e)%nat; [|now intros [= <-]].
  destruct (_ && _); [|discriminate].
  intros [= <-]. now replace (e - s)%nat with 0%nat by lia.
Qed.

(** X5.  When the window was selected from the collection, the lookup
    cannot miss: every resolved match carries an index, that index lies in
    the collection and holds the matched text, and for a selection [q >= 1]
    it is at most the absolute position [s + (q - 1)] of the selected row. *)
Theorem resolve_in_window_found
    (data subset : list CodeSample) (s e : nat) (q : Z) (r : ResolvedMatch) :
  select_range data s e = Return subset ->
  resolve q subset data = Return r ->
  exists k,
    index_position r = Some k /\ (k < List.length data)%nat /\
    nth_error (map query data) k = Some (matched_query_text r) /\
    ((1 <= q)%Z -> (Z.of_nat k <= Z.of_nat s + (q - 1))%Z).
Proof.
  intros Hsel Hr.
  destruct (resolve_inv q subset data r Hr) as [row [Hg [Ht Hf]]].
  apply find_paragraph_index_inv in Hf.
  assert (Hin : In (query row) (map query data)).
  { apply in_map. eapply select_range_incl; eauto using py_getitem_In. }
  destruct (index_position r) as [k|]; [|contradiction].
  destruct Hf as [Hk Hmin]. exists k. rewrite Ht.
  split; [reflexivity|]. split; [|split; [exact Hk|]].
  - rewrite <- (length_map query). apply nth_error_Some. congruence.
  - intros Hq.
    assert (Hne : subset <> [])
      by (intros ->; rewrite py_getitem_empty in Hg; discriminate Hg).
    assert (Hse : (s < e)%nat).
    { destruct (Nat.lt_ge_cases s e) as [H|H]; [exact H|].
      elim Hne. eapply select_range_empty_range; eauto. }
    destruct (select_range_slice data subset s e Hse Hsel Hne) as [He Hsub].
    apply py_getitem_nonneg in Hg; [|lia].
    assert (Hlt : (Z.to_nat (q - 1) < e - s)%nat).
    { assert (H : (Z.to_nat (q - 1) < List.length subset)%nat)
        by (apply nth_error_Some; congruence).
      rewrite Hsub, length_firstn, length_skipn in H. lia. }
    rewrite Hsub, (nth_error_slice _ data s (e - s) _ Hlt) in Hg.
    destruct (Nat.le_gt_cases k (s + Z.to_nat (q - 1))) as [Hle|Hgt]; [lia|].
    elim (Hmin _ Hgt). now rewrite nth_error_map, Hg.
Qed.

Lemma resolve_in_window_found_witness :
  select_range (queries ["d"; "b"; "c"; "d"; "e"]) 2 5 = Return (queries ["c"; "d"; "e"]) /\
  exists k,
    Some 0%nat = Some k /\ (k < 5)%nat /\
    nth_error ["d"; "b"; "c"; "d"; "e"] k = Some "d" /\
    ((1 <= 2)%Z -> (Z.of_nat k <= Z.of_nat 2 + (2 - 1))%Z).
Proof.
  split; [reflexivity|].
  apply (resolve_in_window_found (queries ["d"; "b"; "c"; "d"; "e"])
           (queries ["c"; "d"; "e"]) 2 5 2
           {| matched_query_text := "d"; index_position := Some 0%nat |}
           eq_refl eq_refl).
Defined.

(** X6.  The label the builder writes for the candidate at position [i] of
    the window leads back to that candidate: the extractor reads [i + 1]
    from the candidate's line, whatever text follows the label, and the
    resolver then selects the same candidate.  The window is any window of
    fewer than 10^4300 candidates, so that its labels are numerals [int]
    accepts. *)
Theorem label_round_trip
    (subset data : list CodeSample) (i : nat) (example : CodeSample) :
  (Z.of_nat (List.length subset) < 10 ^ Z.of_nat int_max_str_digits)%Z ->
  nth_error subset i = Some example ->
  exists r,
    extract_query_number (prompt_line i example) = Return (Some (Z.of_nat i + 1)%Z) /\
    resolve (Z.of_nat i + 1) subset data = Return r /\
    matched_query_text r = query example.
Proof.
  intros Hsize Hi.
  assert (Hlen : (i < List.length subset)%nat) by (apply nth_error_Some; congruence).
  destruct (py_getitem_inside _ subset (Z.of_nat i + 1 - 1)) as [row [Hn Hg]]; [lia|].
  replace (Z.to_nat (Z.of_nat i + 1 - 1)) with i in Hn by lia.
  assert (row = example) as -> by congruence.
  destruct (resolve_of_row subset data _ example Hg) as [r [Hr Ht]].
  exists r. split; [apply extract_prompt_line; lia | auto].
Qed.

Lemma label_round_trip_witness :
  nth_error (queries ["c"; "Query 9: d"; "e"]) 1
  = Some {| query := "Query 9: d"; answer := "" |} /\
  exists r,
    extract_query_number (prompt_line 1 {| query := "Query 9: d"; answer := "" |})
    = Return (Some (Z.of_nat 1 + 1)%Z) /\
    resolve (Z.of_nat 1 + 1) (queries ["c"; "Query 9: d"; "e"]) (queries ["a"])
    = Return r /\
    matched_query_text r = "Query 9: d".
Proof.
  split; [reflexivity|].
  apply (label_round_trip (queries ["c"; "Query 9: d"; "e"]) (queries ["a"]) 1
           {| query := "Query 9: d"; answer := "" |});
    [vm_compute; reflexivity | reflexivity].
Defined.

(** ** The pipeline *)

Lemma select_range_raise (data : list CodeSample) (s e : nat) (err : exn) :
  select_range data s e = Raise err -> err = IndexError.
Proof.
  unfold select_range.
  destruct data as [|x data]; [discriminate|].
  destruct (s <=? e)%nat; [|discriminate].
  destruct (_ && _); [discriminate | now intros [= <-]].
Qed.

Lemma resolve_raise (q : Z) (subset data : list CodeSample) (err : exn) :
  resolve q subset data = Raise err -> err = IndexError.
Proof.
  unfold resolve.
  destruct (py_getitem subset (q - 1)) as [row|e] eqn:Hg; cbn [bind].
  - destruct (find_paragraph_index_returns (map query data) (query row)) as [o Ho].
    rewrite Ho. discriminate.
  - intros [= <-]. eapply py_getitem_raise; eauto.
Qed.

Lemma extract_query_number_raise (text : string) (err : exn) :
  extract_query_number text = Raise err ->
  err = ValueError /\
  exists i ds, first_token text i ds /\ (int_max_str_digits < String.length ds)%nat.
Proof.
  unfold extract_query_number, checked_int.
  destruct (re_search text) as [g|] eqn:Hs; [|discriminate].
  destruct (Nat.ltb_spec int_max_str_digits (String.length g)); cbn [bind];
    [|discriminate].
  intros [= <-]. split; [reflexivity|].
  destruct (re_search_some text g Hs) as [i Hi]. eauto.
Qed.

(** X7.  An exception that leaves the pipeline has one of four origins.  It
    is [IndexError], from the reference row, the window or the selection;
    or [TypeError], when the model's answer is [None]; or [ValueError],
    when the first "Query " token of the answer is followed by more than
    4300 digits; or it was raised by the model call, on the prompt it was
    sent.  In particular the [ValueError] of the list search never
    escapes. *)
Theorem run_matcher_raises
    (call : string -> outcome (option string)) (data : list CodeSample)
    (reference : Z) (s e : nat) (err : exn) :
  run_matcher call data reference s e = Raise err ->
  err = IndexError \/
  (err = TypeError /\ exists prompt, call prompt = Return None) \/
  (err = ValueError /\
   exists prompt text i ds,
     call prompt = Return (Some text) /\ first_token text i ds /\
     (int_max_str_digits < String.length ds)%nat) \/
  (exists prompt, call prompt = Raise err).
Proof.
  unfold run_matcher.
  destruct (py_getitem data reference) as [row|e0] eqn:Hrow; cbn [bind];
    [|intros [= <-]; left; eapply py_getitem_raise; eauto].
  destruct (select_range data s e) as [subset|e0] eqn:Hsel; cbn [bind];
    [|intros [= <-]; left; eapply select_range_raise; eauto].
  destruct (call (build_comparison_prompt (answer row) subset)) as [[text|]|e0] eqn:Hc;
    cbn [bind].
  - destruct (extract_query_number text) as [[q|]|e0] eqn:Hx; cbn [bind].
    + destruct (resolve q subset data) as [r|e1] eqn:Hr; cbn [bind]; [discriminate|].
      intros [= <-]; left. eapply resolve_raise; eauto.
    + discriminate.
    + intros [= <-]. right; right; left.
      destruct (extract_query_number_raise text e0 Hx) as [-> [i [ds [Hf Hlen]]]].
      split; [reflexivity|].
      exists (build_comparison_prompt (answer row) subset), text, i, ds. auto.
  - intros [= <-]. right; left. eauto.
  - intros [= <-]. right; right; right. eauto.
Qed.

Lemma run_matcher_raises_witness :
  run_matcher (fun _ => Return None) (queries ["a"; "b"; "c"]) 0 1 3 = Raise TypeError /\
  (TypeError = IndexError \/
   (TypeError = TypeError /\
    exists prompt, (fun _ : string => @Return (option string) None) prompt = Return None) \/
   (TypeError = ValueError /\
    exists prompt text i ds,
      (fun _ : string => @Return (option string) None) prompt = Return (Some text) /\
      first_token text i ds /\ (int_max_str_digits < String.length ds)%nat) \/
   (exists prompt, (fun _ : string => @Return (option string) None) prompt = Raise TypeError)).
Proof.
  split; [reflexivity|].
  apply (run_matcher_raises (fun _ => Return None) (queries ["a"; "b"; "c"])
           0 1 3 TypeError eq_refl).
Defined.

(** X8.  When the reference row and the window exist and the model call
    fails on the built prompt, the pipeline stops with that very exception:
    neither the extractor nor the resolver runs on a missing answer. *)
Theorem run_matcher_upstream_failure
    (call : string -> outcome (option string)) (data subset : list CodeSample)
    (reference : Z) (s e : nat) (row : CodeSample) (err : exn) :
  py_getitem data reference = Return row ->
  select_range data s e = Return subset ->
  call (build_comparison_prompt (answer row) subset) = Raise err ->
  run_matcher call data reference s e = Raise err.
Proof.
  intros Hrow Hsel Hc. unfold run_matcher.
  rewrite Hrow; cbn [bind]. rewrite Hsel; cbn [bind]. now rewrite Hc.
Qed.

Lemma run_matcher_upstream_failure_witness :
  run_matcher (fun _ => Raise (UpstreamError "RateLimitError" "429"))
    (queries ["a"; "b"; "c"]) 0 1 3
  = Raise (UpstreamError "RateLimitError" "429").
Proof.
  apply (run_matcher_upstream_failure
           (fun _ => Raise (UpstreamError "RateLimitError" "429"))
           (queries ["a"; "b"; "c"]) (queries ["b"; "c"]) 0 1 3
           {| query := "a"; answer := "" |} (UpstreamError "RateLimitError" "429")
           eq_refl eq_refl eq_refl).
Defined.

(** X9.  End to end: when the reference row exists, the window [s..e-1]
    lies in the collection, the model answers the built prompt and the
    extractor reads a selection [j] in [1..e-s] from the answer, the
    pipeline returns the query text of row [s + (j - 1)] together with the
    first index of the collection that holds this text, which is at most
    [s + (j - 1)]. *)
Theorem run_matcher_selects
    (call : string -> outcome (option string)) (data : list CodeSample)
    (reference : Z) (s e j : nat) (row cand : CodeSample) (open_gen : string) :
  py_getitem data reference = Return row ->
  (s < e <= List.length data)%nat ->
  call (build_comparison_prompt (answer row) (firstn (e - s) (skipn s data)))
  = Return (Some open_gen) ->
  extract_query_number open_gen = Return (Some (Z.of_nat j)) ->
  (1 <= j <= e - s)%nat ->
  nth_error data (s + (j - 1)) = Some cand ->
  exists k,
    run_matcher call data reference s e
    = Return (Some {| matched_query_text := query cand; index_position := Some k |}) /\
    (k <= s + (j - 1))%nat /\
    nth_error (map query data) k = Some (query cand) /\
    forall k', (k' < k)%nat -> nth_error (map query data) k' <> Some (query cand).
Proof.
  intros Hrow Hse Hc Hx Hj Hcand.
  pose proof (select_range_window data s e Hse) as Hsel.
  assert (Hin : In (query cand) (map query data))
    by (apply in_map; eapply nth_error_In; eauto).
  destruct (list_index_found _ _ Hin) as [k [Hk [Hn Hmin]]].
  assert (Hsub : nth_error (firstn (e - s) (skipn s data)) (j - 1) = Some cand)
    by (rewrite nth_error_slice; [exact Hcand | lia]).
  assert (Hlen : List.length (firstn (e - s) (skipn s data)) = (e - s)%nat)
    by (rewrite length_firstn, length_skipn; lia).
  exists k. split; [|split; [|split; [exact Hn | exact Hmin]]].
  - unfold run_matcher.
    rewrite Hrow; cbn [bind]. rewrite Hsel; cbn [bind]. rewrite Hc; cbn [bind].
    rewrite Hx; cbn [bind]. unfold resolve.
    destruct (py_getitem_inside _ (firstn (e - s) (skipn s data)) (Z.of_nat j - 1))
      as [x [Hnx Hg]]; [lia|].
    replace (Z.to_nat (Z.of_nat j - 1)) with (j - 1)%nat in Hnx by lia.
    assert (x = cand) as -> by congruence.
    rewrite Hg; cbn [bind]. unfold find_paragraph_index. rewrite Hk. reflexivity.
  - destruct (Nat.le_gt_cases k (s + (j - 1))) as [Hle|Hgt]; [exact Hle|].
    elim (Hmin _ Hgt). now rewrite nth_error_map, Hcand.
Qed.

Lemma run_matcher_selects_witness :
  exists k,
    run_matcher (fun _ => Return (Some "... Query 2 is the best match ..."))
      (queries ["a"; "b"; "c"; "d"; "e"]) 1 2 5
    = Return (Some {| matched_query_text := "d"; index_position := Some k |}) /\
    (k <= 2 + (2 - 1))%nat /\
    nth_error (map query (queries ["a"; "b"; "c"; "d"; "e"])) k = Some "d" /\
    forall k', (k' < k)%nat ->
               nth_error (map query (queries ["a"; "b"; "c"; "d"; "e"])) k' <> Some "d".
Proof.
  apply (run_matcher_selects (fun _ => Return (Some "... Query 2 is the best match ..."))
           (queries ["a"; "b"; "c"; "d"; "e"]) 1 2 5 2
           {| query := "b"; answer := "" |} {| query := "d"; answer := "" |}
           "... Query 2 is the best match ...");
    [reflexivity | simpl; lia | reflexivity | reflexivity | lia | reflexivity].
Defined.

(** ** Further properties of the key loader *)

Lemma spaces_only_append (a b : string) :
  spaces_only (a ++ b) = spaces_only a && spaces_only b.
Proof.
  induction a as [|c a IH]; cbn [append spaces_only]; [reflexivity|].
  now rewrite IH, andb_assoc.
Qed.

Lemma lstrip_spaces (s : string) : spaces_only s = true -> lstrip s = "".
Proof.
  induction s as [|c s IH]; cbn [spaces_only lstrip]; [reflexivity|].
  intros H. apply andb_prop in H as [Hc Hs]. now rewrite Hc, IH.
Qed.

Lemma rstrip_spaces (s : string) : spaces_only s = true -> rstrip s = "".
Proof.
  induction s as [|c s IH]; cbn [spaces_only rstrip]; [reflexivity|].
  intros H. apply andb_prop in H as [Hc Hs]. now rewrite IH, Hc.
Qed.

Lemma lstrip_append_spaces (l s : string) :
  spaces_only l = true -> lstrip (l ++ s) = lstrip s.
Proof.
  induction l as [|c l IH]; cbn [spaces_only append lstrip]; [reflexivity|].
  intros H. apply andb_prop in H as [Hc Hl]. now rewrite Hc, IH.
Qed.

Lemma lstrip_id (s : string) : starts_with_space s = false -> lstrip s = s.
Proof.
  destruct s as [|c s]; cbn [starts_with_space lstrip]; [reflexivity|].
  now intros ->.
Qed.

Lemma rstrip_append_spaces (s r : string) :
  spaces_only r = true -> rstrip (s ++ r) = rstrip s.
Proof.
  intros Hr. induction s as [|c s IH]; cbn [append rstrip].
  - now apply rstrip_spaces.
  - now rewrite IH.
Qed.

Lemma rstrip_id (s : string) : ends_with_space s = false -> rstrip s = s.
Proof.
  induction s as [|c s IH]; [reflexivity|].
  destruct s as [|c' s].
  - cbn [ends_with_space rstrip]. now intros ->.
  - intros H. change (ends_with_space (String c' s) = false) in H.
    cbn [rstrip] in IH |- *. cbn [rstrip]. now rewrite (IH H).
Qed.

Lemma strip_padded (key l r : string) :
  starts_with_space key = false -> ends_with_space key = false ->
  spaces_only l = true -> spaces_only r = true ->
  strip (l ++ key ++ r) = key.
Proof.
  intros Hs He Hl Hr. unfold strip. rewrite (lstrip_append_spaces l _ Hl).
  destruct key as [|c key].
  - cbn [append]. now rewrite (lstrip_spaces r Hr).
  - rewrite lstrip_id by exact Hs.
    now rewrite (rstrip_append_spaces _ r Hr), (rstrip_id _ He).
Qed.

(** X10.  A key file that holds a key padded with whitespace on either
    side (the usual trailing newline, for one) loads as exactly that key,
    provided the key itself neither starts nor ends with whitespace;
    whitespace inside the key is kept. *)
Theorem load_api_key_padded
    (open_read : string -> read_result) (path key l r : string) :
  starts_with_space key = false -> ends_with_space key = false ->
  spaces_only l = true -> spaces_only r = true ->
  open_read path = ReadText (l ++ key ++ r) ->
  load_api_key open_read path = Return key.
Proof.
  intros Hs He Hl Hr Hread. unfold load_api_key.
  now rewrite Hread, strip_padded.
Qed.

Lemma load_api_key_padded_witness :
  load_api_key (fun _ => ReadText ((" " ++ tab) ++ "sk proj-1" ++ (nl ++ nl)))
    "open_ai_API.txt"
  = Return "sk proj-1".
Proof.
  apply (load_api_key_padded
           (fun _ => ReadText ((" " ++ tab) ++ "sk proj-1" ++ (nl ++ nl)))
           "open_ai_API.txt" "sk proj-1" (" " ++ tab) (nl ++ nl)
           eq_refl eq_refl eq_refl eq_refl eq_refl).
Defined.

(** X11.  An empty or all-whitespace key file is not an error: the loader
    returns the empty string for it, and for no other readable file. *)
Theorem load_api_key_blank
    (open_read : string -> read_result) (path content : string) :
  open_read path = ReadText content ->
  (load_api_key open_read path = Return "" <-> spaces_only content = true).
Proof.
  intros Hread. unfold load_api_key. rewrite Hread. split.
  - intros [= Hstrip].
    destruct (strip_spec content) as [l [r [Hc [Hl [Hr _]]]]].
    rewrite Hstrip in Hc. rewrite Hc. cbn [append].
    now rewrite spaces_only_append, Hl, Hr.
  - intros Hsp. unfold strip. now rewrite (lstrip_spaces content Hsp).
Qed.

Lemma load_api_key_blank_witness :
  load_api_key (fun _ => ReadText (nl ++ " ")) "open_ai_API.txt" = Return "".
Proof.
  apply (proj2 (load_api_key_blank (fun _ => ReadText (nl ++ " ")) "open_ai_API.txt"
                  (nl ++ " ") eq_refl)).
  reflexivity.
Defined.

(** ** Further properties of the builder *)

Lemma labelled_app (l1 l2 : list CodeSample) (i : nat) :
  labelled i (l1 ++ l2) = labelled i l1 ++ labelled (i + List.length l1) l2.
Proof.
  revert i; induction l1 as [|x l1 IH]; intros i; cbn [app labelled List.length].
  - now rewrite Nat.add_0_r.
  - rewrite IH, append_assoc. now replace (S i + List.length l1)%nat
      with (i + S (List.length l1))%nat by lia.
Qed.

(** X12.  Extending the window only appends: the prompt of a window is a
    prefix of the prompt of the window followed by further candidates, whose
    lines continue the numbering, and one more candidate adds exactly one
    line, numbered with the new size of the window. *)
Theorem build_comparison_prompt_extend
    (code : string) (subset more : list CodeSample) (example : CodeSample) :
  build_comparison_prompt code (subset ++ more)
  = build_comparison_prompt code subset ++ labelled (List.length subset) more /\
  build_comparison_prompt code (subset ++ [example])
  = build_comparison_prompt code subset
    ++ "Query " ++ py_str (List.length subset + 1) ++ ": " ++ query example ++ nl.
Proof.
  rewrite !build_comparison_prompt_eq, !labelled_app, !append_assoc. cbn [Nat.add].
  split; [reflexivity|].
  cbn [labelled]. now rewrite append_nil_r.
Qed.

(** ** The model call and the configured run *)

(** X13.  [call_openai_model] passes on whatever exception the API call
    raises, raises [IndexError] when the reply has no choice, and otherwise
    returns the content of the first choice, a string or [None], whatever
    the other choices are. *)
Theorem call_openai_model_first_choice
    (float : Type)
    (create : string -> list Message -> Z -> float -> outcome ChatCompletion)
    (messages : list Message) (model : string) (max_tokens : Z) (temperature : float) :
  match create model messages max_tokens temperature with
  | Raise e =>
      call_openai_model float create messages model max_tokens temperature = Raise e
  | Return response =>
      match choices response with
      | [] =>
          call_openai_model float create messages model max_tokens temperature
          = Raise IndexError
      | first :: _ =>
          call_openai_model float create messages model max_tokens temperature
          = Return (Reply.content (message first))
      end
  end.
Proof.
  unfold call_openai_model.
  destruct (create model messages max_tokens temperature) as [response|e];
    cbn [bind]; [|reflexivity].
  destruct (choices response) as [|first rest] eqn:Hch.
  - now rewrite py_getitem_empty.
  - destruct (py_getitem_inside _ (first :: rest) 0) as [x [Hn Hg]];
      [cbn [List.length]; lia|].
    rewrite Hg. cbn [bind]. now injection Hn as <-.
Qed.

(** X14.  The configured run is single-shot: its result depends on the API
    through one request only, the one with model "gpt-4o-mini", a single
    "user" message that holds the built prompt, 150 output tokens and the
    configured temperature.  Two APIs that answer this request alike give
    the same result. *)
Theorem notebook_single_request
    (float : Type)
    (create create' : string -> list Message -> Z -> float -> outcome ChatCompletion)
    (temperature : float) (data subset : list CodeSample) (row : CodeSample) :
  py_getitem data 1 = Return row ->
  select_range data 900 1000 = Return subset ->
  create "gpt-4o-mini"
    [{| role := "user"; content := build_comparison_prompt (answer row) subset |}]
    150%Z temperature
  = create' "gpt-4o-mini"
      [{| role := "user"; content := build_comparison_prompt (answer row) subset |}]
      150%Z temperature ->
  notebook float create temperature data = notebook float create' temperature data.
Proof.
  intros Hrow Hsel Hreq.
  unfold notebook, run_matcher, REFERENCE_INDEX, SUBSET_START, SUBSET_END.
  rewrite Hrow; cbn [bind]. rewrite Hsel; cbn [bind].
  unfold call_openai_model, OPENAI_MODEL, OPENAI_MAX_TOKENS. now rewrite Hreq.
Qed.

Lemma notebook_single_request_witness :
  notebook unit (fun _ _ _ _ => Return {| choices := [] |}) tt
    (repeat {| query := "q"; answer := "a" |} 1000)
  = notebook unit
      (fun model _ _ _ =>
         if String.eqb model "gpt-4o-mini" then Return {| choices := [] |}
         else Raise ValueError)
      tt (repeat {| query := "q"; answer := "a" |} 1000).
Proof.
  apply (notebook_single_request unit
           (fun _ _ _ _ => Return {| choices := [] |})
           (fun model _ _ _ =>
              if String.eqb model "gpt-4o-mini" then Return {| choices := [] |}
              else Raise ValueError)
           tt (repeat {| query := "q"; answer := "a" |} 1000)
           (repeat {| query := "q"; answer := "a" |} 100)
           {| query := "q"; answer := "a" |});
    vm_compute; reflexivity.
Defined.

(** X15.  With the configured window [900..999], a dataset of fewer than
    1000 rows makes the run fail with [IndexError] before any request is
    sent, whatever the API would have answered. *)
Theorem notebook_small_dataset
    (float : Type)
    (create : string -> list Message -> Z -> float -> outcome ChatCompletion)
    (temperature : float) (data : list CodeSample) :
  (List.length data < 1000)%nat ->
  notebook float create temperature data = Raise IndexError.
Proof.
  intros Hlen. unfold notebook, run_matcher.
  destruct (py_getitem data REFERENCE_INDEX) as [row|e] eqn:Hrow; cbn [bind].
  - destruct data as [|x data]; [rewrite py_getitem_empty in Hrow; discriminate Hrow|].
    unfold select_range, SUBSET_START, SUBSET_END.
    destruct (Nat.leb_spec 900 1000) as [_|H]; [|lia].
    destruct (Nat.leb_spec 1000 (List.length (x :: data))) as [H|_]; [lia|].
    now rewrite andb_false_r.
  - f_equal. eapply py_getitem_raise; eauto.
Qed.

Lemma notebook_small_dataset_witness :
  (List.length (queries ["a"; "b"; "c"]) < 1000)%nat /\
  notebook unit
    (fun _ _ _ _ =>
       Return {| choices := [{| message := {| Reply.content := Some "Query 1" |} |}] |})
    tt (queries ["a"; "b"; "c"])
  = Raise IndexError.
Proof.
  split; [simpl; lia|].
  apply (notebook_small_dataset unit _ tt (queries ["a"; "b"; "c"])).
  simpl; lia.
Defined.

(** X16.  Selection 0 is not refused by the pipeline either: when the
    extractor reads 0 from the answer (as for "Query 0"), the run returns
    the last candidate of the window, row [e - 1] of the collection, with
    the first index that holds its text. *)
Theorem run_matcher_zero_selects_last
    (call : string -> outcome (option string)) (data : list CodeSample)
    (reference : Z) (s e : nat) (row cand : CodeSample) (open_gen : string) :
  py_getitem data reference = Return row ->
  (s < e <= List.length data)%nat ->
  call (build_comparison_prompt (answer row) (firstn (e - s) (skipn s data)))
  = Return (Some open_gen) ->
  extract_query_number open_gen = Return (Some 0%Z) ->
  nth_error data (e - 1) = Some cand ->
  exists k,
    run_matcher call data reference s e
    = Return (Some {| matched_query_text := query cand; index_position := Some k |}) /\
    (k <= e - 1)%nat /\
    nth_error (map query data) k = Some (query cand) /\
    forall k', (k' < k)%nat -> nth_error (map query data) k' <> Some (query cand).
Proof.
  intros Hrow Hse Hc Hx Hcand.
  pose proof (select_range_window data s e Hse) as Hsel.
  assert (Hin : In (query cand) (map query data))
    by (apply in_map; eapply nth_error_In; eauto).
  destruct (list_index_found _ _ Hin) as [k [Hk [Hn Hmin]]].
  assert (Hlen : List.length (firstn (e - s) (skipn s data)) = (e - s)%nat)
    by (rewrite length_firstn, length_skipn; lia).
  exists k. split; [|split; [|split; [exact Hn | exact Hmin]]].
  - unfold run_matcher.
    rewrite Hrow; cbn [bind]. rewrite Hsel; cbn [bind]. rewrite Hc; cbn [bind].
    rewrite Hx; cbn [bind]. unfold resolve.
    destruct (py_getitem_from_end _ (firstn (e - s) (skipn s data)) (0 - 1))
      as [x [Hnx Hg]]; [lia|].
    rewrite Hlen in Hnx.
    replace (Z.to_nat (0 - 1 + Z.of_nat (e - s))) with (e - s - 1)%nat in Hnx by lia.
    rewrite nth_error_slice in Hnx by lia.
    replace (s + (e - s - 1))%nat with (e - 1)%nat in Hnx by lia.
    assert (x = cand) as -> by congruence.
    rewrite Hg; cbn [bind]. unfold find_paragraph_index. rewrite Hk. reflexivity.
  - destruct (Nat.le_gt_cases k (e - 1)) as [Hle|Hgt]; [exact Hle|].
    elim (Hmin _ Hgt). now rewrite nth_error_map, Hcand.
Qed.

Lemma run_matcher_zero_selects_last_witness :
  exists k,
    run_matcher (fun _ => Return (Some "None fits, so Query 0."))
      (queries ["d"; "b"; "c"; "d"; "e"]) 1 1 4
    = Return (Some {| matched_query_text := "d"; index_position := Some k |}) /\
    (k <= 4 - 1)%nat /\
    nth_error (map query (queries ["d"; "b"; "c"; "d"; "e"])) k = Some "d" /\
    forall k', (k' < k)%nat ->
               nth_error (map query (queries ["d"; "b"; "c"; "d"; "e"])) k' <> Some "d".
Proof.
  apply (run_matcher_zero_selects_last (fun _ => Return (Some "None fits, so Query 0."))
           (queries ["d"; "b"; "c"; "d"; "e"]) 1 1 4
           {| query := "b"; answer := "" |} {| query := "d"; answer := "" |}
           "None fits, so Query 0.");
    [reflexivity | simpl; lia | reflexivity | reflexivity | reflexivity].
Defined.
